(** * FileConverter: a shallow embedding of the conversion pipeline

    The development follows the layout of the repository:

    - [utils/file_utils.py]   : [get_file_type], [get_supported_formats],
                                [clean_filename];
    - [utils/validation.py]   : [validate_file_size], [validate_file_type],
                                [validate_batch_size];
    - [converters/*.py]       : one module per converter class;
    - [app.py]                : [convert_file] and [process_conversions].

    Python values are rendered as follows.  A [str] is a list of characters
    (type [ascii]; the model covers the 8-bit alphabet, which is what file
    extensions, format names and messages of the program use), [bytes] is a
    list of integers in [0, 256), an [int] is a [Z], a [dict] with string keys
    is a [gmap], and the decoded contents of a text file are a list of Unicode
    code points.

    Effects are explicit: a computation is a function of a world (the file
    system, the Streamlit session lists and a trace of the calls made to the
    libraries) that returns a value or a raised exception together with the
    new world.  What the libraries compute (pydub, ffmpeg, PyPDF2,
    python-docx, reportlab, PIL, the clock) is a parameter of the
    development, the class [Externals].

    Assumptions of the model:

    - paths are POSIX paths, and [Path.name], [Path.suffix] and [Path.stem]
      behave as in CPython 3.11;
    - [str.lower] acts on the letters [A] to [Z] only;
    - the imports at the head of each module succeed and the constructors of
      the converter classes do not raise;
    - creating a temporary file, writing to it and removing an existing file
      succeed;
    - the texts of Streamlit messages that embed floating-point numbers or
      timestamps are kept abstract. *)

From Stdlib Require Import ZArith List Ascii String Lia Bool.
From stdpp Require Import base decidable option list strings gmap pretty.
From Equations Require Import Equations.
From Equations.Prop Require Import Logic.

Set Default Proof Using "Type".
Local Open Scope Z_scope.

(** ** Python strings *)

Abbreviation str := (list ascii).

(** String literals of the source. *)
Definition py (s : string) : str := list_ascii_of_string s.
Arguments py : simpl never.

(** The double-quote character, code 34. *)
Definition dquote : ascii := Eval cbv in ascii_of_nat 34.

(** [c.lower()] on one character of the ASCII alphabet. *)
Definition lower_char (c : ascii) : ascii :=
  let n := nat_of_ascii c in
  if bool_decide (65 <= n <= 90)%nat then ascii_of_nat (n + 32) else c.

(** [s.lower()]. *)
Definition lower (s : str) : str := map lower_char s.

(** [s.rfind(c)] for a one-character needle: the highest index holding [c],
    [-1] when there is none.  [rfind_from] scans left to right, [i] being the
    index of the head and [found] the best index seen so far. *)
Fixpoint rfind_from (c : ascii) (s : str) (i found : Z) : Z :=
  match s with
  | [] => found
  | x :: r => rfind_from c r (i + 1) (if bool_decide (x = c) then i else found)
  end.

Definition rfind (s : str) (c : ascii) : Z := rfind_from c s 0 (-1).

(** [s[i:]] and [s[:i]] for a non-negative index. *)
Definition slice_from (s : str) (i : Z) : str := drop (Z.to_nat i) s.
Definition slice_to (s : str) (i : Z) : str := take (Z.to_nat i) s.

(** [s.split(sep)] for a one-character separator: never the empty list.
    The same function splits decoded text, a list of code points. *)
Fixpoint split_on {A : Type} `{EqDecision A} (sep : A) (s : list A)
  : list (list A) :=
  match s with
  | [] => [[]]
  | c :: r =>
      if bool_decide (c = sep) then [] :: split_on sep r
      else match split_on sep r with
           | p :: ps => (c :: p) :: ps
           | [] => [[c]]
           end
  end.

(** [sep.join(parts)]. *)
Fixpoint join (sep : str) (parts : list str) : str :=
  match parts with
  | [] => []
  | [p] => p
  | p :: ps => p ++ sep ++ join sep ps
  end.

(** [needle in s] for strings: [needle] occurs as a contiguous block. *)
Fixpoint starts_with (needle s : str) : bool :=
  match needle, s with
  | [], _ => true
  | _ :: _, [] => false
  | a :: n', b :: s' => bool_decide (a = b) && starts_with n' s'
  end.

Fixpoint contains (needle s : str) : bool :=
  starts_with needle s ||
  match s with
  | [] => false
  | _ :: r => contains needle r
  end.

(** [s.replace(old, new)] for one-character [old] and [new]. *)
Definition replace_char (old new : ascii) (s : str) : str :=
  map (fun c => if bool_decide (c = old) then new else c) s.

(** [s.lstrip(chars)], [s.rstrip(chars)], [s.strip(chars)]. *)
Fixpoint lstrip (chars : list ascii) (s : str) : str :=
  match s with
  | [] => []
  | c :: r => if bool_decide (c ∈ chars) then lstrip chars r else s
  end.

Definition rstrip (chars : list ascii) (s : str) : str :=
  rev (lstrip chars (rev s)).

Definition strip (chars : list ascii) (s : str) : str :=
  rstrip chars (lstrip chars s).

(** ** pathlib

    [Path(p)] on a POSIX host.  The parts of a path are the pieces between
    slashes, empty pieces and [.] pieces dropped; [name] is the last part,
    the empty string when there is none; [suffix] and [stem] cut [name] at
    its last dot unless that dot is the first or the last character
    ([0 < i < len(name) - 1], pathlib of CPython 3.4 to 3.13). *)
Module Path.

Definition parts (p : str) : list str :=
  filter (fun x => x ≠ [] ∧ x ≠ py ".") (split_on "/"%char p).

Definition name (p : str) : str := List.last (parts p) [].

Definition suffix (p : str) : str :=
  let n := name p in
  let i := rfind n "." in
  if bool_decide (0 < i < Z.of_nat (length n) - 1) then slice_from n i else [].

Definition stem (p : str) : str :=
  let n := name p in
  let i := rfind n "." in
  if bool_decide (0 < i < Z.of_nat (length n) - 1) then slice_to n i else n.

End Path.

(** ** utils/file_utils.py *)

Definition document_formats : list str :=
  map py ["pdf"; "doc"; "docx"; "txt"; "rtf"; "odt"]%string.
Definition image_formats : list str :=
  map py ["jpg"; "jpeg"; "png"; "gif"; "webp"; "bmp"; "tiff"; "svg"]%string.
Definition audio_formats : list str :=
  map py ["mp3"; "wav"; "m4a"; "ogg"; "flac"; "aac"; "wma"]%string.
Definition video_formats : list str :=
  map py ["mp4"; "avi"; "mov"; "mkv"; "webm"; "flv"; "wmv"; "3gp"]%string.

(** [Path(filename).suffix.lower()[1:]], the expression the classifier and
    the converters share. *)
Definition extension_of (filename : str) : str :=
  slice_from (lower (Path.suffix filename)) 1.

Definition get_file_type (filename : str) : str :=
  let ext := extension_of filename in
  if bool_decide (ext ∈ document_formats) then py "document"
  else if bool_decide (ext ∈ image_formats) then py "image"
  else if bool_decide (ext ∈ audio_formats) then py "audio"
  else if bool_decide (ext ∈ video_formats) then py "video"
  else py "unknown".

Definition format_mapping : gmap str (list str) :=
  <[py "document" := map py ["pdf"; "docx"; "txt"]%string]>
  (<[py "image" := map py ["jpg"; "png"; "gif"; "webp"; "bmp"]%string]>
  (<[py "audio" := map py ["mp3"; "wav"; "m4a"]%string]>
  (<[py "video" := map py ["mp4"; "avi"; "mov"]%string]> ∅))).

Definition get_supported_formats (file_type : str) : list str :=
  default [] (format_mapping !! file_type).

Definition invalid_chars : list ascii :=
  ["<"; ">"; ":"; dquote; "/"; "\"; "|"; "?"; "*"]%char.

(** [s.replace('__', '_')]: occurrences are replaced left to right without
    overlap, so a run of three underscores becomes two. *)
Fixpoint replace_double_underscore (s : str) : str :=
  match s with
  | [] => []
  | c :: r =>
      if bool_decide (c = "_"%char) then
        match r with
        | d :: r' =>
            if bool_decide (d = "_"%char) then "_"%char :: replace_double_underscore r'
            else c :: replace_double_underscore r
        | [] => [c]
        end
      else c :: replace_double_underscore r
  end.

(** The first loop of [clean_filename]. *)
Definition replace_invalid_chars (filename : str) : str :=
  fold_left (fun clean_name char => replace_char char "_" clean_name)
            invalid_chars filename.

(** One pass of [replace('__', '_')] shortens a string that holds two
    adjacent underscores, so the [while] loop of [clean_filename] ends. *)
Lemma replace_double_underscore_cons2 (c d : ascii) (r : str) :
  replace_double_underscore (c :: d :: r) =
  if bool_decide (c = "_"%char) then
    if bool_decide (d = "_"%char) then "_"%char :: replace_double_underscore r
    else c :: replace_double_underscore (d :: r)
  else c :: replace_double_underscore (d :: r).
Proof. reflexivity. Qed.

Lemma contains_double_underscore_cons2 (c d : ascii) (r : str) :
  contains (py "__") (c :: d :: r) =
  (bool_decide (c = "_"%char) && bool_decide (d = "_"%char))
  || contains (py "__") (d :: r).
Proof.
  change (contains (py "__") (c :: d :: r)) with
    ((bool_decide ("_"%char = c) && (bool_decide ("_"%char = d) && true))
     || contains (py "__") (d :: r)).
  rewrite andb_true_r.
  rewrite (bool_decide_ext ("_"%char = c) (c = "_"%char)) by (split; congruence).
  rewrite (bool_decide_ext ("_"%char = d) (d = "_"%char)) by (split; congruence).
  reflexivity.
Qed.

Lemma str_ind2 (P : str -> Prop) :
  P [] -> (forall c, P [c]) ->
  (forall c d r, P r -> P (d :: r) -> P (c :: d :: r)) ->
  forall s, P s.
Proof.
  intros H0 H1 H2 s. enough (P s /\ forall c, P (c :: s)) by tauto.
  induction s as [|d r [IHr IHd]]; split; auto.
Qed.

Lemma replace_double_underscore_length (s : str) :
  (length (replace_double_underscore s) <= length s)%nat.
Proof.
  induction s as [|c|c d r IHr IHd] using str_ind2.
  - simpl. lia.
  - simpl. case_bool_decide; simpl; lia.
  - rewrite replace_double_underscore_cons2.
    repeat case_bool_decide; simpl in *; lia.
Qed.

Lemma replace_double_underscore_shrinks (s : str) :
  contains (py "__") s = true ->
  (length (replace_double_underscore s) < length s)%nat.
Proof.
  induction s as [|c|c d r IHr IHd] using str_ind2.
  - discriminate.
  - simpl. rewrite andb_false_r. discriminate.
  - rewrite contains_double_underscore_cons2, replace_double_underscore_cons2.
    pose proof (replace_double_underscore_length r).
    repeat case_bool_decide; simpl; intros Hc;
      try (specialize (IHd Hc)); simpl in *; lia.
Qed.

(** The second loop of [clean_filename]:
    [while '__' in clean_name: clean_name = clean_name.replace('__', '_')]. *)
Equations? collapse_underscores (s : str) : str by wf (length s) lt :=
  collapse_underscores s with inspect (contains (py "__") s) => {
    | exist _ true H => collapse_underscores (replace_double_underscore s);
    | exist _ false _ => s }.
Proof. apply replace_double_underscore_shrinks. exact H. Qed.

Definition clean_filename (filename : str) : str :=
  let clean_name := replace_invalid_chars filename in
  let clean_name := collapse_underscores clean_name in
  strip ["_"; " "]%char clean_name.

Example clean_filename_ex :
  clean_filename (py "__a<>b  c?.txt_ ") = py "a_b  c_.txt".
Proof. reflexivity. Qed.

(** ** utils/validation.py *)

(** The text of a validation message.  The two numbers of the size message
    are printed by the source as floating-point megabytes
    ([f"{size / 2**20:.1f}"], [f"{limit / 2**20:.0f}"]); the model keeps the
    integers they are computed from. *)
Inductive Message : Type :=
  | MsgFileSizeExceeds (file_size_bytes limit : Z) (file_type : str)
      (* File size (.. MB) exceeds limit for <file_type> files (.. MB) *)
  | MsgFileSizeValid
      (* File size is valid *)
  | MsgUnsupportedFileType (ext : str)
      (* Unsupported file type: <ext> *)
  | MsgFileTypeSupported (file_type : str)
      (* File type '<file_type>' is supported *)
  | MsgBatchTooLarge (file_count max_batch_size : Z)
      (* Batch size (..) exceeds maximum allowed (..) *)
  | MsgBatchValid.
      (* Batch size is valid *)

Definition size_limits : gmap str Z :=
  <[py "document" := 100 * 1024 * 1024]>
  (<[py "image" := 100 * 1024 * 1024]>
  (<[py "audio" := 100 * 1024 * 1024]>
  (<[py "video" := 50 * 1024 * 1024]> ∅))).

Definition validate_file_size (file_size_bytes : Z) (file_type : str)
  : bool * Message :=
  let limit := default (100 * 1024 * 1024) (size_limits !! file_type) in
  if bool_decide (file_size_bytes > limit)
  then (false, MsgFileSizeExceeds file_size_bytes limit file_type)
  else (true, MsgFileSizeValid).

Definition validate_file_type (filename : str) : bool * Message :=
  let file_type := get_file_type filename in
  if bool_decide (file_type = py "unknown")
  then (false, MsgUnsupportedFileType (lower (Path.suffix filename)))
  else (true, MsgFileTypeSupported file_type).

Definition validate_batch_size (file_count : Z) : bool * Message :=
  let max_batch_size := 10 in
  if bool_decide (file_count > max_batch_size)
  then (false, MsgBatchTooLarge file_count max_batch_size)
  else (true, MsgBatchValid).


(** ** The classifier as the specification words it

    "Derives extension = substring after last '.', lower-cased; empty or
    missing extension gives unknown."  [after_last_dot] is that substring,
    [None] when the string holds no dot; [spec_get_file_type] classifies the
    whole filename by it.  [component_extension] is the variant that leaves
    the first character of the string out of the search for the dot. *)
Fixpoint after_last_dot (s : str) : option str :=
  match s with
  | [] => None
  | c :: r =>
      match after_last_dot r with
      | Some e => Some e
      | None => if bool_decide (c = "."%char) then Some r else None
      end
  end.

Definition component_extension (name : str) : str :=
  match name with
  | [] => []
  | _ :: rest => default [] (after_last_dot rest)
  end.

Definition spec_get_file_type (filename : str) : str :=
  let ext := lower (default [] (after_last_dot filename)) in
  if bool_decide (ext ∈ map py ["pdf"; "doc"; "docx"; "txt"; "rtf"; "odt"]%string)
  then py "document"
  else if bool_decide (ext ∈ map py ["jpg"; "jpeg"; "png"; "gif"; "webp"; "bmp";
                                      "tiff"; "svg"]%string)
  then py "image"
  else if bool_decide (ext ∈ map py ["mp3"; "wav"; "m4a"; "ogg"; "flac"; "aac";
                                      "wma"]%string)
  then py "audio"
  else if bool_decide (ext ∈ map py ["mp4"; "avi"; "mov"; "mkv"; "webm"; "flv";
                                      "wmv"; "3gp"]%string)
  then py "video"
  else py "unknown".

(** ** Bytes and text *)

Abbreviation bytes := (list Z).

(** The contents of a Python [str] that holds document text: code points. *)
Abbreviation text := (list Z).

Definition text_of_str (s : str) : text :=
  map (fun c => Z.of_nat (nat_of_ascii c)) s.

Definition is_continuation (b : Z) : bool := (0x80 <=? b) && (b <=? 0xBF).

(** [bs.decode('utf-8', errors='ignore')], after CPython's decoder: an
    ill-formed sequence is dropped up to its first offending byte, and a
    sequence cut short by the end of the input is dropped whole. *)
Fixpoint utf8_decode_ignore (bs : bytes) : text :=
  match bs with
  | [] => []
  | b0 :: r0 =>
    if b0 <? 0x80 then b0 :: utf8_decode_ignore r0
    else if b0 <? 0xC2 then utf8_decode_ignore r0
    else if b0 <? 0xE0 then
      match r0 with
      | [] => []
      | b1 :: r1 =>
        if is_continuation b1
        then Z.lor (Z.shiftl (Z.land b0 0x1F) 6) (Z.land b1 0x3F)
               :: utf8_decode_ignore r1
        else utf8_decode_ignore r0
      end
    else if b0 <? 0xF0 then
      match r0 with
      | [] => []
      | b1 :: r1 =>
        if negb (is_continuation b1)
           || (if b1 <? 0xA0 then b0 =? 0xE0 else b0 =? 0xED)
        then utf8_decode_ignore r0
        else
          match r1 with
          | [] => []
          | b2 :: r2 =>
            if is_continuation b2
            then Z.lor (Z.shiftl (Z.land b0 0x0F) 12)
                   (Z.lor (Z.shiftl (Z.land b1 0x3F) 6) (Z.land b2 0x3F))
                   :: utf8_decode_ignore r2
            else utf8_decode_ignore r1
          end
      end
    else if b0 <? 0xF5 then
      match r0 with
      | [] => []
      | b1 :: r1 =>
        if negb (is_continuation b1)
           || (if b1 <? 0x90 then b0 =? 0xF0 else b0 =? 0xF4)
        then utf8_decode_ignore r0
        else
          match r1 with
          | [] => []
          | b2 :: r2 =>
            if negb (is_continuation b2) then utf8_decode_ignore r1
            else
              match r2 with
              | [] => []
              | b3 :: r3 =>
                if is_continuation b3
                then Z.lor (Z.shiftl (Z.land b0 0x07) 18)
                       (Z.lor (Z.shiftl (Z.land b1 0x3F) 12)
                          (Z.lor (Z.shiftl (Z.land b2 0x3F) 6) (Z.land b3 0x3F)))
                       :: utf8_decode_ignore r3
                else utf8_decode_ignore r2
              end
          end
      end
    else utf8_decode_ignore r0
  end.

(** Universal newlines of a file opened in text mode with [newline=None]:
    a carriage return, with the line feed that follows it if any, reads as
    one line feed. *)
Fixpoint universal_newlines (s : text) : text :=
  match s with
  | [] => []
  | c :: r =>
    if c =? 13 then
      match r with
      | d :: r' => if d =? 10 then 10 :: universal_newlines r'
                   else 10 :: universal_newlines r
      | [] => [10]
      end
    else c :: universal_newlines r
  end.

(** [s.encode('utf-8')]: [None] stands for [UnicodeEncodeError], raised on a
    surrogate code point. *)
Definition utf8_encode_char (c : Z) : option bytes :=
  if c <? 0x80 then Some [c]
  else if c <? 0x800 then
    Some [Z.lor 0xC0 (Z.shiftr c 6); Z.lor 0x80 (Z.land c 0x3F)]
  else if (0xD800 <=? c) && (c <=? 0xDFFF) then None
  else if c <? 0x10000 then
    Some [Z.lor 0xE0 (Z.shiftr c 12);
          Z.lor 0x80 (Z.land (Z.shiftr c 6) 0x3F);
          Z.lor 0x80 (Z.land c 0x3F)]
  else
    Some [Z.lor 0xF0 (Z.shiftr c 18);
          Z.lor 0x80 (Z.land (Z.shiftr c 12) 0x3F);
          Z.lor 0x80 (Z.land (Z.shiftr c 6) 0x3F);
          Z.lor 0x80 (Z.land c 0x3F)].

Fixpoint utf8_encode (s : text) : option bytes :=
  match s with
  | [] => Some []
  | c :: r =>
    match utf8_encode_char c, utf8_encode r with
    | Some bs, Some rest => Some (bs ++ rest)
    | _, _ => None
    end
  end.

(** [c.isspace()] on a code point, and [s.strip()] without arguments. *)
Definition is_space (c : Z) : bool :=
  ((9 <=? c) && (c <=? 13)) || ((28 <=? c) && (c <=? 32))
  || (c =? 0x85) || (c =? 0xA0) || (c =? 0x1680)
  || ((0x2000 <=? c) && (c <=? 0x200A))
  || (c =? 0x2028) || (c =? 0x2029) || (c =? 0x202F) || (c =? 0x205F)
  || (c =? 0x3000).

Fixpoint lstrip_space (s : text) : text :=
  match s with
  | [] => []
  | c :: r => if is_space c then lstrip_space r else s
  end.

Definition strip_space (s : text) : text :=
  rev (lstrip_space (rev (lstrip_space s))).

(** ** Exceptions and the outside world *)

Inductive ExcClass : Type :=
  | ValueError | FileNotFoundError | TimeoutExpired | SubprocessError
  | UnicodeEncodeError
  | OtherError      (* any other subclass of Exception raised by a library *)
  | PlainException. (* raise Exception(...) *)

(** An exception object: its class and [str(e)]. *)
Record Exc : Type := mkExc { exc_class : ExcClass; exc_str : str }.

Inductive Res (A : Type) : Type :=
  | Ok (a : A)
  | Raise (e : Exc).
Arguments Ok {A} a.
Arguments Raise {A} e.

(** The loaders of [pydub.AudioSegment] that the audio converter calls. *)
Inductive Loader : Type :=
  | FromMp3 | FromWav | FromOgg
  | FromFile (format : option str).

(** What [subprocess.run(cmd, capture_output=True, ...)] gives back. *)
Inductive ProcOutcome : Type :=
  | Completed (returncode : Z) (stdout stderr : str)
  | ProcRaise (e : Exc).

(** Drawing calls on a [reportlab] canvas. *)
Inductive CanvasOp : Type :=
  | DrawString (x y : Z) (s : text)
  | ShowPage.

(** The keyword arguments of [img.save(buffer, format=..., ...)]. *)
Record SaveOptions : Type := mkSaveOptions {
  save_format : str;
  save_quality : option Z;
  save_optimize : bool;
  save_method : option Z;
  save_all : bool;
  save_loop : option Z
}.

(** A converted file as [st.session_state.converted_files] holds it. *)
Record ConvertedFile : Type := mkConvertedFile {
  cf_filename : str; cf_data : bytes; cf_mime_type : str }.

(** The calls the program makes to the outside, in the order it makes them. *)
Inductive Call : Type :=
  | CallTempFile (path : str)
  | CallWrite (path : str)
  | CallRead (path : str)
  | CallUnlink (path : str)
  | CallAudioLoad (loader : Loader) (path : str)
  | CallAudioExport (path format : str) (codec bitrate : option str)
  | CallRun (cmd : list str) (timeout : Z)
  | CallPdfReader (path : str)
  | CallDocxOpen (path : str)
  | CallDocxSave (paragraphs : list text)
  | CallCanvasSave (ops : list CanvasOp)
  | CallImageOpen (path : str)
  | CallImageSave (options : SaveOptions)
  | UiProgress (done total : Z)
  | UiStatusConverting (name : str) (index total : Z)
  | UiStatusAllCompleted
  | UiError (name : str) (message : str)
  | UiSleep (seconds : Z)
  | UiClear
  | UiRerun.

(** The libraries and tools the converters call, as the converters see them.
    Each field is the behaviour of one call; the converters are defined, and
    the properties proved, for every such behaviour. *)
Class Externals : Type := {
  (** [tempfile]: the name of the [n]-th temporary file with a suffix. *)
  temp_path : nat -> str -> str;
  (** [pydub]: decoding a file's bytes with a loader, and [audio.export]. *)
  AudioSegment : Type;
  audio_load : Loader -> bytes -> Res AudioSegment;
  audio_export : AudioSegment -> str -> option str -> option str -> Res bytes;
  (** [subprocess.run]: the outcome and the file system it leaves. *)
  subprocess_run :
    list str -> Z -> gmap str bytes -> ProcOutcome * gmap str bytes;
  (** [PyPDF2]: the text of each page; [python-docx]: the text of each
      paragraph, and the bytes of a document built from paragraphs. *)
  pdf_page_texts : bytes -> Res (list text);
  docx_paragraph_texts : bytes -> Res (list text);
  docx_save : list text -> Res bytes;
  (** [reportlab]: whether [stringWidth(s)] is below the printable width
      [width - 2 * margin], and the bytes of a saved canvas. *)
  string_fits : text -> bool;
  canvas_save : list CanvasOp -> Res bytes;
  (** [PIL]: [Image.open]; [img.mode]; ['transparency' in img.info];
      [img.convert(mode)]; a new white RGB image of the size of [img] with
      [img] pasted on it, through its last band as mask or without mask;
      [img.quantize(colors=256)]; the frames of [ImageSequence.Iterator(img)]
      and [frame.info.get('duration', 100)]; and [save] into a buffer, of one
      image, or of a first frame with the frames appended to it and their
      durations.  A failure of a step between [open] and [save] is reported
      by [save]: both are inside the one [try] of [convert]. *)
  Image : Type;
  image_open : bytes -> Res Image;
  image_mode : Image -> str;
  image_has_transparency : Image -> bool;
  image_convert : Image -> str -> Image;
  image_on_white : Image -> bool -> Image;
  image_quantize : Image -> Image;
  image_frames : Image -> list Image;
  image_duration : Image -> Z;
  image_save : SaveOptions -> Image -> Res bytes;
  image_save_frames : SaveOptions -> list Image -> list Z -> Res bytes;
  (** [time.time()] at the moment the given number of calls has been made. *)
  Time : Type;
  time_time : nat -> Time
}.

(** An entry of [st.session_state.conversion_history]. *)
Record HistoryEntry {E : Externals} : Type := mkHistoryEntry {
  he_original : str; he_converted : str; he_timestamp : Time }.
Arguments mkHistoryEntry {E} _ _ _.

(** The state the program runs in: the files on disk, the number of
    temporary files created, the calls made so far, and the two lists of
    [st.session_state]. *)
Record World {E : Externals} : Type := mkWorld {
  fs : gmap str bytes;
  temp_count : nat;
  calls : list Call;
  converted_files : list ConvertedFile;
  conversion_history : list HistoryEntry
}.
Arguments mkWorld {E} _ _ _ _ _.

Section Effects.
Context {E : Externals}.

(** A computation: it runs in a world and ends with a value or a raised
    exception, in a new world. *)
Definition M (A : Type) : Type := World -> Res A * World.

Definition ret {A} (a : A) : M A := fun w => (Ok a, w).
Definition raise {A} (e : Exc) : M A := fun w => (Raise e, w).
Definition bind {A B} (m : M A) (k : A -> M B) : M B :=
  fun w => match m w with
           | (Ok a, w') => k a w'
           | (Raise e, w') => (Raise e, w')
           end.

(** [try: body except Exception as e: handler(e)]. *)
Definition try_except {A} (body : M A) (handler : Exc -> M A) : M A :=
  fun w => match body w with
           | (Ok a, w') => (Ok a, w')
           | (Raise e, w') => handler e w'
           end.

(** [try: body finally: cleanup]. *)
Definition try_finally {A} (body : M A) (cleanup : M unit) : M A :=
  fun w => match body w with
           | (r, w') => match cleanup w' with
                        | (Ok _, w'') => (r, w'')
                        | (Raise e, w'') => (Raise e, w'')
                        end
           end.

Definition set_fs (f : gmap str bytes) (w : World) : World :=
  mkWorld f (temp_count w) (calls w) (converted_files w) (conversion_history w).

Definition log (c : Call) : M unit :=
  fun w => (Ok tt, mkWorld (fs w) (temp_count w) (calls w ++ [c])
                           (converted_files w) (conversion_history w)).

(** [with tempfile.NamedTemporaryFile(suffix=..., delete=False) as f:
    path = f.name]: a new empty file. *)
Definition named_temporary_file (suffix : str) : M str :=
  fun w =>
    let path := temp_path (temp_count w) suffix in
    (Ok path, mkWorld (<[path := []]> (fs w)) (S (temp_count w))
                      (calls w ++ [CallTempFile path])
                      (converted_files w) (conversion_history w)).

Definition write_file (path : str) (data : bytes) : M unit :=
  fun w => (Ok tt, mkWorld (<[path := data]> (fs w)) (temp_count w)
                           (calls w ++ [CallWrite path])
                           (converted_files w) (conversion_history w)).

Definition no_such_file (path : str) : Exc :=
  mkExc FileNotFoundError
        (py "[Errno 2] No such file or directory: '" ++ path ++ py "'").

(** [open(path, 'rb').read()]. *)
Definition read_file (path : str) : M bytes :=
  fun w => match fs w !! path with
           | Some data => (Ok data, mkWorld (fs w) (temp_count w)
                                      (calls w ++ [CallRead path])
                                      (converted_files w) (conversion_history w))
           | None => (Raise (no_such_file path), w)
           end.

(** [os.path.exists(path)] and [os.unlink(path)]. *)
Definition path_exists (path : str) : M bool :=
  fun w => (Ok (bool_decide (is_Some (fs w !! path))), w).

Definition unlink (path : str) : M unit :=
  fun w => match fs w !! path with
           | Some _ => (Ok tt, mkWorld (delete path (fs w)) (temp_count w)
                                 (calls w ++ [CallUnlink path])
                                 (converted_files w) (conversion_history w))
           | None => (Raise (no_such_file path), w)
           end.

(** [s.encode('utf-8')] as a computation. *)
Definition encode_utf8 (s : text) : M bytes :=
  match utf8_encode s with
  | Some bs => ret bs
  | None => raise (mkExc UnicodeEncodeError
                     (py "'utf-8' codec can't encode character: surrogates not allowed"))
  end.

(** The world [w] after the calls [cs], nothing else changed. *)
Definition logged (w : World) (cs : list Call) : World :=
  mkWorld (fs w) (temp_count w) (calls w ++ cs) (converted_files w)
          (conversion_history w).

(** Lifting the outcome of a library call. *)
Definition lift {A} (r : Res A) : M A := fun w => (r, w).

End Effects.

Notation "x <- m ;; k" := (bind m (fun x => k))
  (at level 100, m at next level, right associativity,
   format "'[v' x  <-  m  ;;  '/' k ']'").
Notation "m ;;; k" := (bind m (fun _ => k))
  (at level 100, right associativity).

(** The [finally] block the program uses for its temporary files:
    [if os.path.exists(path): os.unlink(path)]. *)
Definition remove_if_exists {E : Externals} (path : str) : M unit :=
  present <- path_exists path ;;
  if present then unlink path else ret tt.

(** ** converters/document_converter.py *)

Module DocumentConverter.
Section Converter.
Context {E : Externals}.

Definition supported_inputs : list str :=
  map py ["pdf"; "doc"; "docx"; "txt"; "rtf"]%string.
Definition supported_outputs : list str :=
  map py ["pdf"; "docx"; "txt"]%string.

Definition docx_mime : str :=
  py "application/vnd.openxmlformats-officedocument.wordprocessingml.document".

Definition _get_output_filename (original_filename output_format : str) : str :=
  Path.stem original_filename ++ py "." ++ output_format.

(** [_extract_text_from_pdf]: any failure gives the placeholder. *)
Definition _extract_text_from_pdf (pdf_path : str) : M text :=
  try_except
    (data <- read_file pdf_path ;;
     log (CallPdfReader pdf_path) ;;;
     pages <- lift (pdf_page_texts data) ;;
     ret (concat (map (fun page_text => page_text ++ [10]) pages)))
    (fun _ => ret (text_of_str (py "Unable to extract text from PDF"))).

Definition _extract_text_from_docx (docx_path : str) : M text :=
  try_except
    (data <- read_file docx_path ;;
     log (CallDocxOpen docx_path) ;;;
     paragraphs <- lift (docx_paragraph_texts data) ;;
     ret (concat (map (fun paragraph => paragraph ++ [10]) paragraphs)))
    (fun _ => ret (text_of_str (py "Unable to extract text from DOCX"))).

(** The page geometry of [_txt_to_pdf]: [letter] is 612 by 792 points. *)
Definition width : Z := 612.
Definition height : Z := 792.
Definition margin : Z := 50.
Definition line_height : Z := 14.

(** The canvas calls made so far, the vertical cursor and the page count. *)
Record PdfState : Type := mkPdfState {
  ops : list CanvasOp; y_position : Z; page_num : Z }.

(** [c.drawString(margin, y_position, current_line.strip())], the cursor
    moved down one line, and a new page once it passes the bottom margin. *)
Definition draw_line (current_line : text) (st : PdfState) : PdfState :=
  let drawn := ops st ++ [DrawString margin (y_position st) (strip_space current_line)] in
  let y := y_position st - line_height in
  if y <? margin
  then mkPdfState (drawn ++ [ShowPage]) (height - margin) (page_num st + 1)
  else mkPdfState drawn y (page_num st).

(** The body of [for word in words]. *)
Definition wrap_word (acc : text * PdfState) (word : text) : text * PdfState :=
  let '(current_line, st) := acc in
  let test_line := current_line ++ word ++ [32] in
  if string_fits test_line then (test_line, st)
  else (word ++ [32],
        if bool_decide (current_line <> []) then draw_line current_line st else st).

(** The body of [for line in lines]. *)
Definition layout_line (st : PdfState) (line : text) : PdfState :=
  let '(current_line, st') := fold_left wrap_word (split_on 32 line) ([], st) in
  if bool_decide (current_line <> []) then draw_line current_line st' else st'.

Definition _txt_to_pdf (text_content : text) (output_filename : str)
  : M (bytes * str * str) :=
  try_except
    (let lines := split_on 10 text_content in
     let st := fold_left layout_line lines
                 (mkPdfState [] (height - margin) 1) in
     log (CallCanvasSave (ops st)) ;;;
     data <- lift (canvas_save (ops st)) ;;
     ret (data, output_filename, py "application/pdf"))
    (fun e => raise (mkExc PlainException
                       (py "Failed to convert to PDF: " ++ exc_str e))).

Definition _txt_to_docx (text_content : text) (output_filename : str)
  : M (bytes * str * str) :=
  try_except
    (let paragraphs :=
       map (fun paragraph_text =>
              if bool_decide (strip_space paragraph_text <> [])
              then paragraph_text else [])
           (split_on 10 text_content) in
     log (CallDocxSave paragraphs) ;;;
     data <- lift (docx_save paragraphs) ;;
     ret (data, output_filename, docx_mime))
    (fun e => raise (mkExc PlainException
                       (py "Failed to convert to DOCX: " ++ exc_str e))).

Definition unsupported_output (output_format : str) : Exc :=
  mkExc ValueError (py "Unsupported output format: " ++ output_format).

(** [open(input_path, 'r', encoding='utf-8', errors='ignore').read()]. *)
Definition read_text (input_path : str) : M text :=
  data <- read_file input_path ;;
  ret (universal_newlines (utf8_decode_ignore data)).

Definition _convert_from_txt (input_path output_format output_filename : str)
  : M (bytes * str * str) :=
  content <- read_text input_path ;;
  if bool_decide (output_format = py "txt") then
    data <- encode_utf8 content ;;
    ret (data, output_filename, py "text/plain")
  else if bool_decide (output_format = py "pdf") then
    _txt_to_pdf content output_filename
  else if bool_decide (output_format = py "docx") then
    _txt_to_docx content output_filename
  else raise (unsupported_output output_format).

Definition _convert_from_pdf (input_path output_format output_filename : str)
  : M (bytes * str * str) :=
  if bool_decide (output_format = py "pdf") then
    data <- read_file input_path ;;
    ret (data, output_filename, py "application/pdf")
  else
    text_content <- _extract_text_from_pdf input_path ;;
    if bool_decide (output_format = py "txt") then
      data <- encode_utf8 text_content ;;
      ret (data, output_filename, py "text/plain")
    else if bool_decide (output_format = py "docx") then
      _txt_to_docx text_content output_filename
    else raise (unsupported_output output_format).

Definition _convert_from_docx (input_path output_format output_filename : str)
  : M (bytes * str * str) :=
  if bool_decide (output_format = py "docx") then
    data <- read_file input_path ;;
    ret (data, output_filename, docx_mime)
  else
    text_content <- _extract_text_from_docx input_path ;;
    if bool_decide (output_format = py "txt") then
      data <- encode_utf8 text_content ;;
      ret (data, output_filename, py "text/plain")
    else if bool_decide (output_format = py "pdf") then
      _txt_to_pdf text_content output_filename
    else raise (unsupported_output output_format).

Definition convert (input_path output_format original_filename : str)
  : M (bytes * str * str) :=
  let input_ext := extension_of input_path in
  let output_filename := _get_output_filename original_filename output_format in
  if bool_decide (input_ext = py "txt") then
    _convert_from_txt input_path output_format output_filename
  else if bool_decide (input_ext = py "pdf") then
    _convert_from_pdf input_path output_format output_filename
  else if bool_decide (input_ext ∈ map py ["doc"; "docx"]%string) then
    _convert_from_docx input_path output_format output_filename
  else raise (mkExc ValueError (py "Unsupported input format: " ++ input_ext)).

End Converter.
End DocumentConverter.

(** ** converters/image_converter.py *)

Module ImageConverter.
Section Converter.
Context {E : Externals}.

Definition supported_formats : list str :=
  map py ["jpg"; "jpeg"; "png"; "gif"; "webp"; "bmp"]%string.

Definition mime_types : gmap str str :=
  <[py "jpg" := py "image/jpeg"]>
  (<[py "jpeg" := py "image/jpeg"]>
  (<[py "png" := py "image/png"]>
  (<[py "gif" := py "image/gif"]>
  (<[py "webp" := py "image/webp"]>
  (<[py "bmp" := py "image/bmp"]> ∅))))).

Definition _get_output_filename (original_filename output_format : str) : str :=
  Path.stem original_filename ++ py "." ++ lower output_format.

(** [img.save(buffer, ...)] followed by [buffer.getvalue()]. *)
Definition save (options : SaveOptions) (img : Image) : M bytes :=
  log (CallImageSave options) ;;;
  lift (image_save options img).

Definition mime (key : str) : str := default [] (mime_types !! key).

(** The white background with the image pasted on it, as [_convert_to_jpeg]
    and [_convert_to_bmp] build it: a palette image is converted to RGBA
    first, and the last band is the mask when the mode is RGBA. *)
Definition flatten_on_white (img : Image) : Image :=
  let img := if bool_decide (image_mode img = py "P")
             then image_convert img (py "RGBA") else img in
  image_on_white img (bool_decide (image_mode img = py "RGBA")).

Definition _convert_to_jpeg (img : Image) (output_filename : str)
  : M (bytes * str * str) :=
  let img :=
    if bool_decide (image_mode img ∈ map py ["RGBA"; "LA"; "P"]%string)
    then flatten_on_white img
    else if bool_decide (image_mode img <> py "RGB")
    then image_convert img (py "RGB")
    else img in
  data <- save (mkSaveOptions (py "JPEG") (Some 95) true None false None) img ;;
  ret (data, output_filename, mime (py "jpg")).

Definition _convert_to_png (img : Image) (output_filename : str)
  : M (bytes * str * str) :=
  let img :=
    if bool_decide (image_mode img ∉ map py ["RGB"; "RGBA"; "L"; "LA"]%string)
    then if image_has_transparency img
         then image_convert img (py "RGBA")
         else image_convert img (py "RGB")
    else img in
  data <- save (mkSaveOptions (py "PNG") None true None false None) img ;;
  ret (data, output_filename, mime (py "png")).

(** [img.seek(1)] succeeds when the image has a second frame. *)
Definition is_animated (img : Image) : bool :=
  bool_decide (2 <= length (image_frames img))%nat.

Definition _convert_to_gif (img : Image) (output_filename input_path : str)
  : M (bytes * str * str) :=
  data <-
    (if is_animated img then
       let frames :=
         map (fun frame => image_quantize (image_convert frame (py "RGB")))
             (image_frames img) in
       let durations := map image_duration (image_frames img) in
       let options := mkSaveOptions (py "GIF") None true None true (Some 0) in
       log (CallImageSave options) ;;;
       lift (image_save_frames options frames durations)
     else
       let img :=
         if bool_decide (image_mode img <> py "P") then
           let img :=
             if bool_decide (image_mode img ∈ map py ["RGBA"; "LA"]%string)
             then image_on_white img true
             else if bool_decide (image_mode img <> py "RGB")
             then image_convert img (py "RGB")
             else img in
           image_quantize img
         else img in
       save (mkSaveOptions (py "GIF") None true None false None) img) ;;
  ret (data, output_filename, mime (py "gif")).

Definition _convert_to_webp (img : Image) (output_filename : str)
  : M (bytes * str * str) :=
  let img :=
    if bool_decide (image_mode img ∉ map py ["RGB"; "RGBA"]%string)
    then if image_has_transparency img
            || bool_decide (image_mode img ∈ map py ["RGBA"; "LA"]%string)
         then image_convert img (py "RGBA")
         else image_convert img (py "RGB")
    else img in
  data <- save (mkSaveOptions (py "WebP") (Some 90) false (Some 6) false None) img ;;
  ret (data, output_filename, mime (py "webp")).

Definition _convert_to_bmp (img : Image) (output_filename : str)
  : M (bytes * str * str) :=
  let img :=
    if bool_decide (image_mode img ∈ map py ["RGBA"; "LA"; "P"]%string)
    then if image_has_transparency img
         then flatten_on_white img
         else image_convert img (py "RGB")
    else if bool_decide (image_mode img <> py "RGB")
    then image_convert img (py "RGB")
    else img in
  data <- save (mkSaveOptions (py "BMP") None false None false None) img ;;
  ret (data, output_filename, mime (py "bmp")).

Definition convert (input_path output_format original_filename : str)
  : M (bytes * str * str) :=
  let output_filename := _get_output_filename original_filename output_format in
  try_except
    (data <- read_file input_path ;;
     log (CallImageOpen input_path) ;;;
     img <- lift (image_open data) ;;
     let target := lower output_format in
     if bool_decide (target ∈ map py ["jpg"; "jpeg"]%string) then
       _convert_to_jpeg img output_filename
     else if bool_decide (target = py "png") then
       _convert_to_png img output_filename
     else if bool_decide (target = py "gif") then
       _convert_to_gif img output_filename input_path
     else if bool_decide (target = py "webp") then
       _convert_to_webp img output_filename
     else if bool_decide (target = py "bmp") then
       _convert_to_bmp img output_filename
     else raise (mkExc ValueError
                   (py "Unsupported output format: " ++ output_format)))
    (fun e => raise (mkExc PlainException
                       (py "Failed to convert image: " ++ exc_str e))).

End Converter.
End ImageConverter.

(** ** converters/audio_converter.py *)

Module AudioConverter.
Section Converter.
Context {E : Externals}.

Definition supported_formats : list str :=
  map py ["mp3"; "wav"; "m4a"; "ogg"; "flac"]%string.

Definition mime_types : gmap str str :=
  <[py "mp3" := py "audio/mpeg"]>
  (<[py "wav" := py "audio/wav"]>
  (<[py "m4a" := py "audio/mp4"]>
  (<[py "ogg" := py "audio/ogg"]>
  (<[py "flac" := py "audio/flac"]> ∅)))).

Definition _get_output_filename (original_filename output_format : str) : str :=
  Path.stem original_filename ++ py "." ++ lower output_format.

(** A call to one of the loaders of [AudioSegment] on a path. *)
Definition load (loader : Loader) (input_path : str) : M AudioSegment :=
  log (CallAudioLoad loader input_path) ;;;
  fun w => match fs w !! input_path with
           | Some data => (audio_load loader data, w)
           | None => (Raise (no_such_file input_path), w)
           end.

(** [audio.export(path, format=..., codec=..., bitrate=...)]. *)
Definition export (audio : AudioSegment) (path format : str)
                  (codec bitrate : option str) : M unit :=
  log (CallAudioExport path format codec bitrate) ;;;
  data <- lift (audio_export audio format codec bitrate) ;;
  fun w => (Ok tt, set_fs (<[path := data]> (fs w)) w).

Definition _export_audio (audio : AudioSegment)
                         (output_format output_filename : str)
  : M (bytes * str * str) :=
  tmp_output_path <- named_temporary_file (py "." ++ output_format) ;;
  try_finally
    ((if bool_decide (output_format = py "mp3") then
        export audio tmp_output_path (py "mp3") None (Some (py "192k"))
      else if bool_decide (output_format = py "wav") then
        export audio tmp_output_path (py "wav") None None
      else if bool_decide (output_format = py "m4a") then
        export audio tmp_output_path (py "mp4") (Some (py "aac")) None
      else if bool_decide (output_format = py "ogg") then
        export audio tmp_output_path (py "ogg") None None
      else if bool_decide (output_format = py "flac") then
        export audio tmp_output_path (py "flac") None None
      else raise (mkExc ValueError
                    (py "Unsupported output format: " ++ output_format))) ;;;
     audio_data <- read_file tmp_output_path ;;
     let mime_type := default (py "audio/mpeg") (mime_types !! output_format) in
     ret (audio_data, output_filename, mime_type))
    (remove_if_exists tmp_output_path).

(** The loader [convert] picks for a declared input extension. *)
Definition loader_for (input_ext : str) : Loader :=
  if bool_decide (input_ext = py "mp3") then FromMp3
  else if bool_decide (input_ext = py "wav") then FromWav
  else if bool_decide (input_ext = py "m4a") then FromFile (Some (py "m4a"))
  else if bool_decide (input_ext = py "ogg") then FromOgg
  else if bool_decide (input_ext = py "flac") then FromFile (Some (py "flac"))
  else FromFile None.

(** The first statement of the [try] block of [convert]. *)
Definition load_by_extension (input_ext input_path : str) : M AudioSegment :=
  if bool_decide (input_ext = py "mp3") then load FromMp3 input_path
  else if bool_decide (input_ext = py "wav") then load FromWav input_path
  else if bool_decide (input_ext = py "m4a") then
    load (FromFile (Some (py "m4a"))) input_path
  else if bool_decide (input_ext = py "ogg") then load FromOgg input_path
  else if bool_decide (input_ext = py "flac") then
    load (FromFile (Some (py "flac"))) input_path
  else load (FromFile None) input_path.

Definition both_failed (e fallback_error : Exc) : Exc :=
  mkExc PlainException
        (py "Failed to convert audio: " ++ exc_str e
         ++ py ". Fallback also failed: " ++ exc_str fallback_error).

Definition convert (input_path output_format original_filename : str)
  : M (bytes * str * str) :=
  let output_filename := _get_output_filename original_filename output_format in
  try_except
    (let input_ext := extension_of input_path in
     audio <- load_by_extension input_ext input_path ;;
     _export_audio audio output_format output_filename)
    (fun e =>
       try_except
         (audio <- load (FromFile None) input_path ;;
          _export_audio audio output_format output_filename)
         (fun fallback_error => raise (both_failed e fallback_error))).

End Converter.
End AudioConverter.

(** ** converters/video_converter.py *)

Module VideoConverter.
Section Converter.
Context {E : Externals}.

Definition supported_formats : list str :=
  map py ["mp4"; "avi"; "mov"; "mkv"; "webm"]%string.

Definition mime_types : gmap str str :=
  <[py "mp4" := py "video/mp4"]>
  (<[py "avi" := py "video/x-msvideo"]>
  (<[py "mov" := py "video/quicktime"]>
  (<[py "mkv" := py "video/x-matroska"]>
  (<[py "webm" := py "video/webm"]> ∅)))).

Definition _get_output_filename (original_filename output_format : str) : str :=
  Path.stem original_filename ++ py "." ++ lower output_format.

(** [subprocess.run(cmd, capture_output=True, timeout=timeout)]. *)
Definition run (cmd : list str) (timeout : Z) : M ProcOutcome :=
  log (CallRun cmd timeout) ;;;
  fun w => let '(outcome, files) := subprocess_run cmd timeout (fs w) in
           (Ok outcome, set_fs files w).

Definition _check_ffmpeg : M bool :=
  outcome <- run (map py ["ffmpeg"; "-version"]%string) 10 ;;
  match outcome with
  | Completed returncode _ _ => ret (returncode =? 0)
  | ProcRaise e =>
      match exc_class e with
      | TimeoutExpired | FileNotFoundError | SubprocessError => ret false
      | _ => raise e
      end
  end.

Definition _build_ffmpeg_command (input_path output_path output_format : str)
  : list str :=
  let base_cmd := [py "ffmpeg"; py "-i"; input_path; py "-y"] in
  if bool_decide (output_format = py "mp4") then
    base_cmd ++ map py ["-c:v"; "libx264"; "-c:a"; "aac"; "-preset"; "medium";
                        "-crf"; "23"; "-movflags"; "+faststart"]%string
             ++ [output_path]
  else if bool_decide (output_format = py "avi") then
    base_cmd ++ map py ["-c:v"; "libx264"; "-c:a"; "mp3"; "-preset"; "medium";
                        "-crf"; "23"]%string
             ++ [output_path]
  else if bool_decide (output_format = py "mov") then
    base_cmd ++ map py ["-c:v"; "libx264"; "-c:a"; "aac"; "-preset"; "medium";
                        "-crf"; "23"]%string
             ++ [output_path]
  else if bool_decide (output_format = py "webm") then
    base_cmd ++ map py ["-c:v"; "libvpx-vp9"; "-c:a"; "libopus"; "-crf"; "30";
                        "-b:v"; "0"]%string
             ++ [output_path]
  else if bool_decide (output_format = py "mkv") then
    base_cmd ++ map py ["-c:v"; "libx264"; "-c:a"; "aac"; "-preset"; "medium";
                        "-crf"; "23"]%string
             ++ [output_path]
  else base_cmd ++ [output_path].

(** The body of the inner [try] of [convert]: run the tool on the
    temporary output path and read the file it wrote. *)
Definition run_conversion (input_path tmp_output_path output_format
                           output_filename : str) : M (bytes * str * str) :=
  let cmd := _build_ffmpeg_command input_path tmp_output_path output_format in
  result <- run cmd 300 ;;
  match result with
  | ProcRaise e => raise e
  | Completed returncode _ stderr =>
      if negb (returncode =? 0) then
        raise (mkExc PlainException
                 (py "FFmpeg conversion failed: " ++ stderr))
      else
        video_data <- read_file tmp_output_path ;;
        let mime_type :=
          default (py "video/mp4") (mime_types !! output_format) in
        ret (video_data, output_filename, mime_type)
  end.

Definition convert (input_path output_format original_filename : str)
  : M (bytes * str * str) :=
  let output_filename := _get_output_filename original_filename output_format in
  try_except
    (available <- _check_ffmpeg ;;
     if negb available then
       raise (mkExc PlainException
                (py "FFmpeg is required for video conversion but not available"))
     else
       tmp_output_path <- named_temporary_file (py "." ++ output_format) ;;
       try_finally
         (run_conversion input_path tmp_output_path output_format output_filename)
         (remove_if_exists tmp_output_path))
    (fun e =>
       if contains (py "FFmpeg") (exc_str e) then
         raise (mkExc PlainException
                  (py "Video conversion requires FFmpeg installation. Please use a simpler format conversion or install FFmpeg."))
       else
         raise (mkExc PlainException
                  (py "Failed to convert video: " ++ exc_str e))).

End Converter.
End VideoConverter.

(** ** app.py *)

(** An uploaded file as Streamlit hands it over, and a conversion job as
    [main] queues it. *)
Record UploadedFile : Type := mkUploadedFile {
  uf_name : str; uf_size : Z; uf_data : bytes }.

Record Job : Type := mkJob {
  job_file : UploadedFile; job_output_format : str; job_file_type : str }.

(** The four converter classes. *)
Inductive ConverterClass : Type :=
  | DocumentConverterClass | ImageConverterClass
  | AudioConverterClass | VideoConverterClass.

Section App.
Context {E : Externals}.

(** [converter = XConverter(); converter.convert(...)]: the method of the
    class that [convert_file] instantiates. *)
Definition convert_with (converter : ConverterClass)
  : str -> str -> str -> M (bytes * str * str) :=
  match converter with
  | DocumentConverterClass => DocumentConverter.convert
  | ImageConverterClass => ImageConverter.convert
  | AudioConverterClass => AudioConverter.convert
  | VideoConverterClass => VideoConverter.convert
  end.

Definition convert_file (uploaded_file : UploadedFile)
                        (output_format file_type : str)
  : M (bytes * str * str) :=
  tmp_file_path <-
    named_temporary_file
      (py "." ++ List.last (split_on "."%char (uf_name uploaded_file)) []) ;;
  write_file tmp_file_path (uf_data uploaded_file) ;;;
  try_finally
    (let original_filename := uf_name uploaded_file in
     if bool_decide (file_type = py "document") then
       convert_with DocumentConverterClass tmp_file_path output_format original_filename
     else if bool_decide (file_type = py "image") then
       convert_with ImageConverterClass tmp_file_path output_format original_filename
     else if bool_decide (file_type = py "audio") then
       convert_with AudioConverterClass tmp_file_path output_format original_filename
     else if bool_decide (file_type = py "video") then
       convert_with VideoConverterClass tmp_file_path output_format original_filename
     else raise (mkExc ValueError (py "Unsupported file type: " ++ file_type)))
    (remove_if_exists tmp_file_path).

(** [st.session_state.converted_files.append(...)] followed by
    [st.session_state.conversion_history.append(...)]. *)
Definition record_conversion (original : str) (file : ConvertedFile) : M unit :=
  fun w =>
    (Ok tt,
     mkWorld (fs w) (temp_count w) (calls w)
             (converted_files w ++ [file])
             (conversion_history w
                ++ [mkHistoryEntry original (cf_filename file)
                                   (time_time (length (calls w)))])).

(** The body of the loop of [process_conversions] for job number [i]. *)
Definition process_job (total_jobs i : Z) (job : Job) : M unit :=
  let name := uf_name (job_file job) in
  log (UiProgress (i + 1) total_jobs) ;;;
  log (UiStatusConverting name (i + 1) total_jobs) ;;;
  try_except
    (result <- convert_file (job_file job) (job_output_format job)
                            (job_file_type job) ;;
     let '(converted_data, output_filename, mime_type) := result in
     if bool_decide (converted_data <> []) then
       record_conversion name
         (mkConvertedFile output_filename converted_data mime_type)
     else ret tt)
    (fun e => log (UiError name (exc_str e))).

Fixpoint process_jobs (total_jobs i : Z) (jobs : list Job) : M unit :=
  match jobs with
  | [] => ret tt
  | job :: rest =>
      process_job total_jobs i job ;;; process_jobs total_jobs (i + 1) rest
  end.

Definition process_conversions (conversion_jobs : list Job) : M unit :=
  let total_jobs := Z.of_nat (length conversion_jobs) in
  log (UiProgress 0 total_jobs) ;;;
  process_jobs total_jobs 0 conversion_jobs ;;;
  log UiStatusAllCompleted ;;;
  log (UiSleep 1) ;;;
  log UiClear ;;;
  log UiClear ;;;
  log UiRerun.

End App.

(** ** What a batch leaves behind

    The program keeps no list of outcomes: a job that succeeds leaves an
    entry in [st.session_state.converted_files], a job that fails leaves an
    [st.error] message.  [job_outcome] is what job number [i] leaves when the
    loop reaches it in world [w]: one of the two, or nothing. *)
Inductive Outcome : Type :=
  | Success (file : ConvertedFile)
  | Failure (original_filename message : str).

Definition ui_error (c : Call) : option (str * str) :=
  match c with
  | UiError name message => Some (name, message)
  | _ => None
  end.

(** The [st.error] messages among a list of calls. *)
Definition ui_errors (cs : list Call) : list (str * str) := omap ui_error cs.

Definition success (o : option Outcome) : option ConvertedFile :=
  match o with
  | Some (Success file) => Some file
  | _ => None
  end.

Definition failure (o : option Outcome) : option (str * str) :=
  match o with
  | Some (Failure name message) => Some (name, message)
  | _ => None
  end.

Section Outcomes.
Context {E : Externals}.

Definition job_outcome (total_jobs i : Z) (job : Job) (w : World)
  : option Outcome :=
  let name := uf_name (job_file job) in
  let started :=
    logged w [UiProgress (i + 1) total_jobs;
              UiStatusConverting name (i + 1) total_jobs] in
  match fst (convert_file (job_file job) (job_output_format job)
                          (job_file_type job) started) with
  | Ok (converted_data, output_filename, mime_type) =>
      if bool_decide (converted_data <> [])
      then Some (Success (mkConvertedFile output_filename converted_data mime_type))
      else None
  | Raise e => Some (Failure name (exc_str e))
  end.

Fixpoint job_outcomes (total_jobs i : Z) (jobs : list Job) (w : World)
  : list (option Outcome) :=
  match jobs with
  | [] => []
  | job :: rest =>
      job_outcome total_jobs i job w
      :: job_outcomes total_jobs (i + 1) rest
           (snd (process_job total_jobs i job w))
  end.

(** What job [job] left, when it left [o]. *)
Definition job_left (job : Job) (o : option Outcome) : Prop :=
  match o with
  | Some (Success file) =>
      cf_filename file
      = Path.stem (uf_name (job_file job)) ++ py "."
        ++ lower (job_output_format job)
      /\ cf_data file <> []
  | Some (Failure name _) => name = uf_name (job_file job)
  | None => True
  end.

(** [w'] differs from [w] by work behind the scenes: the session lists are
    the same, and the calls added show no error message. *)
Definition backstage (w w' : World) : Prop :=
  converted_files w' = converted_files w
  /\ conversion_history w' = conversion_history w
  /\ exists cs, calls w' = calls w ++ cs /\ ui_errors cs = [].

(** A computation that only works behind the scenes. *)
Definition quiet {A} (m : M A) : Prop := forall w, backstage w (snd (m w)).

End Outcomes.

(** A call to an audio loader among the calls. *)
Definition is_audio_load (c : Call) : bool :=
  match c with
  | CallAudioLoad _ _ => true
  | _ => false
  end.

(** A run of the command-line tool among the calls. *)
Definition is_run (c : Call) : bool :=
  match c with
  | CallRun _ _ => true
  | _ => false
  end.

(** ** Temporary files

    What the properties of the temporary files are stated with. *)

(** The temporary files created by the calls [cs]. *)
Definition temp_file (c : Call) : option str :=
  match c with
  | CallTempFile path => Some path
  | _ => None
  end.

Definition temp_files (cs : list Call) : list str := omap temp_file cs.

Section TemporaryFiles.
Context {E : Externals}.

(** Between [w] and [w'] calls were made that created no temporary file. *)
Definition no_temp_created (w w' : World) : Prop :=
  exists cs, calls w' = calls w ++ cs /\ temp_files cs = [].

(** Between [w] and [w'] calls were made, and no temporary file they
    created is left in [w']. *)
Definition cleaned_up (w w' : World) : Prop :=
  exists cs, calls w' = calls w ++ cs
             /\ forall path, path ∈ temp_files cs -> fs w' !! path = None.

(** [cleaned_up], and no path that was free in [w] holds a file in [w']. *)
Definition tidy (w w' : World) : Prop :=
  exists cs, calls w' = calls w ++ cs
             /\ (forall path, path ∈ temp_files cs -> fs w' !! path = None)
             /\ (forall path, fs w !! path = None -> fs w' !! path = None).

(** A computation that creates no temporary file and changes no file other
    than the one at [tmp]. *)
Definition confined {A} (tmp : str) (m : M A) : Prop :=
  forall w, no_temp_created w (snd (m w))
            /\ forall other, other <> tmp ->
                             fs (snd (m w)) !! other = fs w !! other.

End TemporaryFiles.

(** ** Test doubles

    A stand-in for the outside world in which every library call succeeds:
    a decoded audio or image is the bytes of its file, an encoder returns the
    bytes it is given, text extraction returns one page or paragraph holding
    the decoded file, and the command-line tool exits with code [0], a
    conversion having written three bytes to the path that ends its command
    line. *)
Definition temp_name (n : nat) (suffix : str) : str :=
  py "/tmp/tmp" ++ py (pretty n) ++ suffix.

Definition run_succeeds (cmd : list str) (timeout : Z) (files : gmap str bytes)
  : ProcOutcome * gmap str bytes :=
  if bool_decide (cmd = map py ["ffmpeg"; "-version"]%string)
  then (Completed 0 [] [], files)
  else (Completed 0 [] [], <[List.last cmd [] := [1; 2; 3]]> files).

(** A stand-in built from the behaviour of the audio loaders, of the audio
    export, of the command-line tool and of text extraction.  An image is
    the bytes of its file, of mode RGB, with one frame. *)
Definition stand_in
    (load : Loader -> bytes -> Res bytes)
    (export : bytes -> Res bytes)
    (run : list str -> Z -> gmap str bytes -> ProcOutcome * gmap str bytes)
    (extract : bytes -> Res (list text)) : Externals := {|
  temp_path := temp_name;
  AudioSegment := bytes;
  audio_load := load;
  audio_export := fun audio _ _ _ => export audio;
  subprocess_run := run;
  pdf_page_texts := extract;
  docx_paragraph_texts := extract;
  docx_save := fun paragraphs => Ok (concat paragraphs);
  string_fits := fun s => (length s <=? 80)%nat;
  canvas_save := fun ops => Ok [37; 80; 68; 70];
  Image := bytes;
  image_open := fun data => Ok data;
  image_mode := fun _ => py "RGB";
  image_has_transparency := fun _ => false;
  image_convert := fun img _ => img;
  image_on_white := fun img _ => img;
  image_quantize := fun img => img;
  image_frames := fun img => [img];
  image_duration := fun _ => 100;
  image_save := fun _ img => Ok img;
  image_save_frames := fun _ frames _ => Ok (concat frames);
  Time := unit;
  time_time := fun _ => tt
|}.

Definition all_succeed : Externals :=
  stand_in (fun _ data => Ok data) (fun audio => Ok audio) run_succeeds
           (fun data => Ok [utf8_decode_ignore data]).

(** A world with a broken decoder for declared formats, a broken encoder, a
    tool that exits with code [1] and broken text extraction: only the
    generic audio loader succeeds. *)
Definition run_fails (cmd : list str) (timeout : Z) (files : gmap str bytes)
  : ProcOutcome * gmap str bytes :=
  if bool_decide (cmd = map py ["ffmpeg"; "-version"]%string)
  then (Completed 0 [] [], files)
  else (Completed 1 [] (py "Invalid data found when processing input"), files).

Definition load_generic_only (loader : Loader) (data : bytes) : Res bytes :=
  match loader with
  | FromFile None => Ok data
  | _ => Raise (mkExc OtherError (py "Decoding failed"))
  end.

Definition tools_fail : Externals :=
  stand_in load_generic_only
           (fun _ => Raise (mkExc OtherError (py "Encoding failed")))
           run_fails
           (fun _ => Raise (mkExc OtherError (py "EOF marker not found"))).

(** A world in which only the decoders for declared formats are broken. *)
Definition decoder_fails : Externals :=
  stand_in load_generic_only (fun audio => Ok audio) run_succeeds
           (fun data => Ok [utf8_decode_ignore data]).

(** An empty world holding the given files. *)
Definition world_with {E : Externals} (files : list (str * bytes)) : World :=
  mkWorld (list_to_map files) 0 [] [] [].

Definition one_text_file {E : Externals} : World :=
  world_with [(py "/tmp/in.txt", [104; 105])].

(** A batch of one job: an empty text file to convert to text. *)
Definition empty_text_job : Job :=
  mkJob (mkUploadedFile (py "empty.txt") 0 []) (py "txt") (py "document").

(** A batch of two jobs: a text file to convert to text, then a video. *)
Definition text_and_video_jobs : list Job :=
  [mkJob (mkUploadedFile (py "a.txt") 2 [104; 105]) (py "txt") (py "document");
   mkJob (mkUploadedFile (py "clip.mp4") 3 [0; 0; 0]) (py "avi") (py "video")].

(** A world holding one file with an audio extension. *)
Definition one_audio_file {E : Externals} : World :=
  world_with [(py "/tmp/in.mp3", [73; 68; 51])].

(** A world holding one file with a video extension. *)
Definition one_video_file {E : Externals} : World :=
  world_with [(py "/tmp/in.mp4", [0; 0; 0; 24])].

(** A Word 97 file: the first bytes of its OLE header. *)
Definition one_doc_file {E : Externals} : World :=
  world_with [(py "/tmp/in.doc", [208; 207; 17; 224])].

(** ** Proof steps shared by the properties *)

(** Unfolds the operations of [M], so that a computation reads as a case
    analysis on the outcomes of the calls it makes. *)
Ltac unfold_m :=
  unfold bind, try_except, try_finally, ret, raise, lift, log, read_file,
         encode_utf8, path_exists, unlink, named_temporary_file, write_file,
         set_fs in *.

(** Takes apart equations between outcomes. *)
Ltac inv_results :=
  repeat match goal with
  | H : (_, _) = (_, _) |- _ => injection H as ? ?
  | H : Ok _ = Ok _ |- _ => injection H as ?
  | H : Raise _ = Raise _ |- _ => injection H as ?
  | H : Ok _ = Raise _ |- _ => discriminate H
  | H : Raise _ = Ok _ |- _ => discriminate H
  | H : Some _ = Some _ |- _ => injection H as ?
  | H : Some _ = None |- _ => discriminate H
  | H : None = Some _ |- _ => discriminate H
  | H : ?x = _ |- _ => is_var x; subst x
  | H : _ = ?x |- _ => is_var x; subst x
  end.

(** Splits on every outcome in sight and closes the cases that an equation
    between results decides. *)
Ltac by_cases :=
  cbn beta; repeat case_match; simpl; intros; unfold_m; inv_results; try done.
(* ================================================================== *)
(** * Properties *)
(* ================================================================== *)

(** ** Size validation *)

Lemma size_limits_lookup (file_type : str) :
  default (100 * 1024 * 1024) (size_limits !! file_type) =
  if bool_decide (file_type = py "video") then 50 * 1024 * 1024
  else 100 * 1024 * 1024.
Proof.
  unfold size_limits.
  repeat (rewrite lookup_insert; case_decide; subst; [reflexivity|]).
  rewrite lookup_empty. simpl. case_bool_decide; [by subst | done].
Qed.

(** C6.  The size check fails, with the size-exceeded message, exactly when
    the size is strictly above the ceiling of the category: 50 MiB for
    [video], 100 MiB for [document], [image], [audio] and for every other
    category string; a file of exactly the ceiling passes. *)
Theorem validate_file_size_ceiling (file_size_bytes : Z) (file_type : str) :
  let ceiling :=
    if bool_decide (file_type = py "video") then 50 * 1024 * 1024
    else 100 * 1024 * 1024 in
  (fst (validate_file_size file_size_bytes file_type) = false
     <-> file_size_bytes > ceiling)
  /\ (file_size_bytes > ceiling ->
      validate_file_size file_size_bytes file_type
      = (false, MsgFileSizeExceeds file_size_bytes ceiling file_type))
  /\ (file_size_bytes <= ceiling ->
      validate_file_size file_size_bytes file_type = (true, MsgFileSizeValid))
  /\ validate_file_size ceiling file_type = (true, MsgFileSizeValid).
Proof.
  intros ceiling. unfold validate_file_size.
  rewrite size_limits_lookup. fold ceiling.
  repeat split.
  - case_bool_decide; simpl; [done | discriminate].
  - intros Hgt. rewrite bool_decide_eq_true_2; done.
  - intros Hgt. rewrite bool_decide_eq_true_2; done.
  - intros Hle. rewrite bool_decide_eq_false_2; [done | lia].
  - rewrite bool_decide_eq_false_2; [done | lia].
Qed.

Example validate_file_size_video_at_limit :
  validate_file_size (50 * 1024 * 1024) (py "video") = (true, MsgFileSizeValid)
  /\ fst (validate_file_size (50 * 1024 * 1024 + 1) (py "video")) = false
  /\ fst (validate_file_size (50 * 1024 * 1024 + 1) (py "audio")) = true
  /\ fst (validate_file_size (100 * 1024 * 1024 + 1) (py "spreadsheet")) = false.
Proof. vm_compute. auto. Qed.

(** ** Filename cleaning *)

Section CleanFilename.

(** Substring containment, as a statement about decompositions. *)
Lemma starts_with_spec (needle s : str) :
  starts_with needle s = true <-> exists b, s = needle ++ b.
Proof.
  revert s; induction needle as [|a n IH]; intros s; simpl.
  - split; eauto.
  - destruct s as [|c r].
    + split; [discriminate | intros [b Hb]; discriminate].
    + rewrite andb_true_iff, bool_decide_eq_true, IH. split.
      * intros [-> [b ->]]. eauto.
      * intros [b Hb]. injection Hb as -> ->. eauto.
Qed.

Lemma contains_spec (needle s : str) :
  contains needle s = true <-> exists a b, s = a ++ needle ++ b.
Proof.
  induction s as [|c r IH].
  - simpl. rewrite orb_false_r, starts_with_spec. split.
    + intros [b Hb]. exists [], b. exact Hb.
    + intros [a [b Hab]]. destruct a; simpl in Hab; [eauto | discriminate].
  - cbn [contains]. rewrite orb_true_iff, starts_with_spec, IH. split.
    + intros [[b Hb] | [a [b Hab]]].
      * exists [], b. exact Hb.
      * exists (c :: a), b. simpl. congruence.
    + intros [[|c' a] [b Hab]]; simpl in Hab.
      * left. eauto.
      * right. injection Hab as -> ->. eauto.
Qed.

Lemma contains_false_infix (needle a s b : str) :
  contains needle (a ++ s ++ b) = false -> contains needle s = false.
Proof.
  intros H. destruct (contains needle s) eqn:E; [|reflexivity].
  apply contains_spec in E as [x [y ->]].
  assert (contains needle (a ++ (x ++ needle ++ y) ++ b) = true) as H'.
  { apply contains_spec. exists (a ++ x), (y ++ b).
    by rewrite <- !app_assoc. }
  congruence.
Qed.

(** [lstrip] and [rstrip] cut a block off one end. *)
Lemma lstrip_suffix (chars : list ascii) (s : str) :
  exists p, s = p ++ lstrip chars s /\ Forall (fun c => c ∈ chars) p.
Proof.
  induction s as [|c r [p [Hp Hall]]]; simpl.
  - exists []. split; [reflexivity | constructor].
  - case_bool_decide.
    + exists (c :: p). split; [simpl; congruence | by constructor].
    + exists []. split; [reflexivity | constructor].
Qed.

Lemma rstrip_prefix (chars : list ascii) (s : str) :
  exists q, s = rstrip chars s ++ q /\ Forall (fun c => c ∈ chars) q.
Proof.
  unfold rstrip. destruct (lstrip_suffix chars (rev s)) as [p [Hp Hall]].
  exists (rev p). split.
  - rewrite <- rev_app_distr, <- Hp. by rewrite rev_involutive.
  - by apply Forall_rev.
Qed.

Lemma lstrip_head (chars : list ascii) (s : str) (c : ascii) :
  head (lstrip chars s) = Some c -> c ∉ chars.
Proof.
  induction s as [|x r IH]; simpl; [discriminate|].
  case_bool_decide; [exact IH|]. simpl. congruence.
Qed.

Lemma lstrip_id (chars : list ascii) (s : str) :
  (forall c, head s = Some c -> c ∉ chars) -> lstrip chars s = s.
Proof.
  destruct s as [|x r]; simpl; [done|]. intros H.
  rewrite bool_decide_eq_false_2; [done | by apply H].
Qed.

Lemma last_rev_head (s : str) : last s = head (rev s).
Proof.
  induction s as [|x r IH] using rev_ind; [done|].
  by rewrite last_snoc, rev_app_distr.
Qed.

Lemma rstrip_last (chars : list ascii) (s : str) (c : ascii) :
  last (rstrip chars s) = Some c -> c ∉ chars.
Proof.
  unfold rstrip. rewrite last_rev_head, rev_involutive. apply lstrip_head.
Qed.

Lemma rstrip_id (chars : list ascii) (s : str) :
  (forall c, last s = Some c -> c ∉ chars) -> rstrip chars s = s.
Proof.
  intros H. unfold rstrip. rewrite lstrip_id; [apply rev_involutive|].
  intros c Hc. apply H. by rewrite last_rev_head.
Qed.

Lemma rstrip_head (chars : list ascii) (s : str) (c : ascii) :
  head (rstrip chars s) = Some c -> head s = Some c.
Proof.
  destruct (rstrip_prefix chars s) as [q [Hq _]]. intros H.
  rewrite Hq. destruct (rstrip chars s); [discriminate | exact H].
Qed.

Lemma strip_ends (chars : list ascii) (s : str) (c : ascii) :
  head (strip chars s) = Some c \/ last (strip chars s) = Some c -> c ∉ chars.
Proof.
  unfold strip. intros [H | H].
  - apply rstrip_head in H. by apply lstrip_head in H.
  - by apply rstrip_last in H.
Qed.

Lemma strip_infix (chars : list ascii) (s : str) :
  exists a b, s = a ++ strip chars s ++ b.
Proof.
  unfold strip. destruct (lstrip_suffix chars s) as [p [Hp _]].
  destruct (rstrip_prefix chars (lstrip chars s)) as [q [Hq _]].
  exists p, q. by rewrite <- Hq.
Qed.

Lemma strip_id (chars : list ascii) (s : str) :
  (forall c, head s = Some c -> c ∉ chars) ->
  (forall c, last s = Some c -> c ∉ chars) ->
  strip chars s = s.
Proof.
  intros Hh Hl. unfold strip. rewrite lstrip_id by done. by apply rstrip_id.
Qed.

Lemma not_elem_of_strip_chars (c : ascii) :
  c ∉ ["_"; " "]%char <-> c <> "_"%char /\ c <> " "%char.
Proof.
  rewrite !not_elem_of_cons. split.
  - intros (? & ? & _). done.
  - intros [? ?]. repeat split; auto. apply not_elem_of_nil.
Qed.

(** The first loop replaces exactly the listed characters. *)
Lemma fold_replace_char_map (chars : list ascii) (s : str) :
  fold_left (fun clean_name char => replace_char char "_" clean_name) chars s =
  map (fun c => if bool_decide (c ∈ chars) then "_"%char else c) s.
Proof.
  revert s; induction chars as [|ch rest IH]; intros s; simpl.
  - rewrite <- (map_id s) at 1. apply map_ext. intros c. reflexivity.
  - rewrite IH. unfold replace_char. rewrite map_map. apply map_ext.
    intros c. cbn beta. destruct (decide (c = ch)) as [->|Hne].
    + rewrite (bool_decide_eq_true_2 (ch = ch)) by done.
      rewrite (bool_decide_eq_true_2 (ch ∈ ch :: rest)) by (apply elem_of_cons; auto).
      by case_bool_decide.
    + rewrite (bool_decide_eq_false_2 (c = ch)) by done.
      apply (f_equal (fun b : bool => if b then "_"%char else c)).
      apply bool_decide_ext. rewrite elem_of_cons. tauto.
Qed.

Lemma replace_invalid_chars_map (s : str) :
  replace_invalid_chars s =
  map (fun c => if bool_decide (c ∈ invalid_chars) then "_"%char else c) s.
Proof. apply fold_replace_char_map. Qed.

Lemma replace_invalid_chars_clean (s : str) :
  Forall (fun c => c ∉ invalid_chars) (replace_invalid_chars s).
Proof.
  rewrite replace_invalid_chars_map. apply Forall_map, Forall_forall.
  intros c _. simpl. case_bool_decide; [|done].
  apply (bool_decide_eq_false_1 ("_"%char ∈ invalid_chars)). reflexivity.
Qed.

Lemma replace_invalid_chars_id (s : str) :
  Forall (fun c => c ∉ invalid_chars) s -> replace_invalid_chars s = s.
Proof.
  intros H. rewrite replace_invalid_chars_map.
  induction H as [|c r Hc _ IH]; simpl; [done|].
  rewrite bool_decide_eq_false_2 by done. by rewrite IH.
Qed.

(** The second loop only drops underscores and stops on a string without
    two adjacent ones. *)
Lemma replace_double_underscore_Forall (P : ascii -> Prop) (s : str) :
  Forall P s -> Forall P (replace_double_underscore s).
Proof.
  induction s as [|c|c d r IHr IHd] using str_ind2; intros H.
  - constructor.
  - simpl. by case_bool_decide.
  - rewrite replace_double_underscore_cons2.
    inversion H as [|? ? Hc Hdr]; subst. inversion Hdr as [|? ? Hd Hr]; subst.
    repeat case_bool_decide; subst; constructor; auto.
Qed.

Lemma collapse_underscores_Forall (P : ascii -> Prop) (s : str) :
  Forall P s -> Forall P (collapse_underscores s).
Proof.
  funelim (collapse_underscores s); intros HP;
    auto using replace_double_underscore_Forall.
Qed.

Lemma collapse_underscores_done (s : str) :
  contains (py "__") (collapse_underscores s) = false.
Proof.
  funelim (collapse_underscores s); auto.
Qed.

Lemma collapse_underscores_id (s : str) :
  contains (py "__") s = false -> collapse_underscores s = s.
Proof.
  intros Hno. funelim (collapse_underscores s); [congruence | done].
Qed.

End CleanFilename.

(** C10.  The cleaned name holds none of the nine characters that
    [clean_filename] replaces (less-than, greater-than, colon, double quote,
    slash, backslash, bar, question mark, star), holds no two adjacent
    underscores, neither starts
    nor ends with an underscore or a space, and cleaning it again changes
    nothing. *)
Theorem clean_filename_canonical (filename : str) :
  let r := clean_filename filename in
  Forall (fun c => c ∉ ["<"; ">"; ":"; dquote; "/"; "\"; "|"; "?"; "*"]%char) r
  /\ contains (py "__") r = false
  /\ (forall c, head r = Some c -> c <> "_"%char /\ c <> " "%char)
  /\ (forall c, last r = Some c -> c <> "_"%char /\ c <> " "%char)
  /\ clean_filename r = r.
Proof.
  intros r.
  assert (Hsub : exists a b,
             collapse_underscores (replace_invalid_chars filename) = a ++ r ++ b)
    by apply strip_infix.
  destruct Hsub as [a [b Hab]].
  assert (Hchars : Forall (fun c => c ∉ invalid_chars) r).
  { pose proof (collapse_underscores_Forall _ _
                  (replace_invalid_chars_clean filename)) as H.
    rewrite Hab in H. apply Forall_app in H as [_ H].
    by apply Forall_app in H as [H _]. }
  assert (Huu : contains (py "__") r = false).
  { apply (contains_false_infix _ a r b). rewrite <- Hab.
    apply collapse_underscores_done. }
  assert (Hends : forall c, head r = Some c \/ last r = Some c ->
                            c <> "_"%char /\ c <> " "%char).
  { intros c Hc. apply not_elem_of_strip_chars. by apply strip_ends in Hc. }
  split; [exact Hchars|]. split; [exact Huu|].
  split; [intros c Hc; apply Hends; auto|].
  split; [intros c Hc; apply Hends; auto|].
  fold r. unfold clean_filename.
  rewrite replace_invalid_chars_id by done.
  rewrite collapse_underscores_id by done.
  apply strip_id; intros c Hc; apply not_elem_of_strip_chars, Hends; auto.
Qed.

(** ** The format classifier *)

Section Classifier.

Lemma after_last_dot_length (s e : str) :
  after_last_dot s = Some e -> (length e < length s)%nat.
Proof.
  revert e; induction s as [|c r IH]; intros e; simpl; [discriminate|].
  destruct (after_last_dot r) as [e'|].
  - intros [= <-]. specialize (IH e' eq_refl). lia.
  - case_bool_decide; [|discriminate]. intros [= <-]. lia.
Qed.

Lemma after_last_dot_drop (s e : str) :
  after_last_dot s = Some e ->
  drop (length s - 1 - length e) s = "."%char :: e.
Proof.
  revert e; induction s as [|c r IH]; intros e; simpl; [discriminate|].
  destruct (after_last_dot r) as [e'|] eqn:E.
  - intros [= <-]. pose proof (after_last_dot_length _ _ E).
    replace (length r - 0 - length e')%nat
      with (S (length r - 1 - length e')) by lia.
    simpl. by apply IH.
  - case_bool_decide; [|discriminate]. intros [= <-]. subst c.
    by replace (length r - 0 - length r)%nat with 0%nat by lia.
Qed.

(** [rfind] finds the dot that [after_last_dot] cuts at. *)
Lemma rfind_from_dot (s : str) (i found : Z) :
  rfind_from "." s i found =
  match after_last_dot s with
  | Some e => i + Z.of_nat (length s) - 1 - Z.of_nat (length e)
  | None => found
  end.
Proof.
  revert i found; induction s as [|c r IH]; intros i found; simpl; [done|].
  rewrite IH. destruct (after_last_dot r) as [e|]; [lia|].
  case_bool_decide; [lia | done].
Qed.

Lemma lower_dot_tail (e : str) :
  slice_from (lower ("."%char :: e)) 1 = lower e.
Proof. reflexivity. Qed.

(** The expression [suffix.lower()[1:]] on one path component. *)
Lemma suffix_lower_tail (n : str) :
  slice_from
    (lower (if bool_decide (0 < rfind n "." < Z.of_nat (length n) - 1)
            then slice_from n (rfind n ".") else [])) 1
  = lower (component_extension n).
Proof.
  unfold rfind. rewrite rfind_from_dot.
  destruct n as [|c rest]; [reflexivity|].
  cbn [after_last_dot component_extension].
  destruct (after_last_dot rest) as [e|] eqn:E.
  - pose proof (after_last_dot_length _ _ E) as Hlen.
    assert (Hdrop : after_last_dot (c :: rest) = Some e) by (simpl; by rewrite E).
    apply after_last_dot_drop in Hdrop.
    destruct e as [|x e].
    + rewrite bool_decide_eq_false_2; [done | simpl length; lia].
    + rewrite bool_decide_eq_true_2 by (simpl length in *; lia).
      unfold slice_from at 2.
      replace (Z.to_nat (0 + Z.of_nat (length (c :: rest)) - 1
                         - Z.of_nat (length (x :: e))))
        with (length (c :: rest) - 1 - length (x :: e))%nat
        by (simpl length in *; lia).
      rewrite Hdrop. apply lower_dot_tail.
  - destruct (bool_decide (c = "."%char)).
    + rewrite bool_decide_eq_false_2; [done | simpl length; lia].
    + rewrite bool_decide_eq_false_2; [done | lia].
Qed.

Lemma extension_of_component (filename : str) :
  extension_of filename = lower (component_extension (Path.name filename)).
Proof. unfold extension_of, Path.suffix. apply suffix_lower_tail. Qed.

(** A bare file name is its own final component. *)
Lemma split_on_absent (sep : ascii) (s : str) :
  sep ∉ s -> split_on sep s = [s].
Proof.
  induction s as [|c r IH]; intros Hs; simpl; [done|].
  apply not_elem_of_cons in Hs as [Hc Hr].
  rewrite bool_decide_eq_false_2 by congruence. by rewrite IH.
Qed.

Lemma path_name_bare (filename : str) :
  "/"%char ∉ filename -> head filename <> Some "."%char ->
  Path.name filename = filename.
Proof.
  intros Hslash Hdot. unfold Path.name, Path.parts.
  rewrite split_on_absent by done.
  destruct filename as [|c r]; [reflexivity|].
  rewrite filter_cons_True; [reflexivity|].
  split; [done|]. intros Heq. apply Hdot. vm_compute in Heq. by injection Heq as ->.
Qed.

End Classifier.

(** C5, as the classifier is written.  The extension is looked for in the
    final path component of the filename: it is the substring after the last
    dot of that component, the first character of the component left out of
    the search, lower-cased.  The category is the one of the four sets that
    holds the extension, [unknown] when none does, which covers the empty
    extension. *)
Theorem get_file_type_classifies (filename : str) :
  let ext := lower (component_extension (Path.name filename)) in
  let r := get_file_type filename in
  (ext ∈ map py ["pdf"; "doc"; "docx"; "txt"; "rtf"; "odt"]%string
     /\ r = py "document")
  \/ (ext ∈ map py ["jpg"; "jpeg"; "png"; "gif"; "webp"; "bmp"; "tiff"; "svg"]%string
     /\ r = py "image")
  \/ (ext ∈ map py ["mp3"; "wav"; "m4a"; "ogg"; "flac"; "aac"; "wma"]%string
     /\ r = py "audio")
  \/ (ext ∈ map py ["mp4"; "avi"; "mov"; "mkv"; "webm"; "flv"; "wmv"; "3gp"]%string
     /\ r = py "video")
  \/ ((ext ∉ document_formats ++ image_formats ++ audio_formats ++ video_formats)
      /\ r = py "unknown").
Proof.
  intros ext r. subst r. unfold get_file_type.
  rewrite extension_of_component. fold ext.
  repeat (case_bool_decide; [tauto|]).
  do 4 right. split; [|reflexivity].
  rewrite !elem_of_app. tauto.
Qed.

(** C5 as stated fails on a name whose only dot comes first, and on a path
    that ends in a slash. *)
Lemma get_file_type_leading_dot_counterexample :
  get_file_type (py ".pdf") = py "unknown"
  /\ spec_get_file_type (py ".pdf") = py "document"
  /\ get_file_type (py "report.pdf/") = py "document"
  /\ spec_get_file_type (py "report.pdf/") = py "unknown".
Proof. repeat split; reflexivity. Qed.

(** X3.  On a bare file name, one without a slash, that does not begin with
    a dot, the classifier looks at the substring after the last dot of the
    whole name, lower-cased: it is the classifier the specification words. *)
Lemma get_file_type_bare_name (filename : str) :
  "/"%char ∉ filename -> head filename <> Some "."%char ->
  get_file_type filename = spec_get_file_type filename.
Proof.
  intros Hslash Hdot. unfold get_file_type, spec_get_file_type.
  rewrite extension_of_component, path_name_bare by done.
  assert (component_extension filename = default [] (after_last_dot filename)) as ->;
    [|reflexivity].
  destruct filename as [|c r]; [reflexivity|]. simpl.
  destruct (after_last_dot r); [reflexivity|].
  rewrite bool_decide_eq_false_2; [reflexivity|].
  intros ->. by apply Hdot.
Qed.

Lemma get_file_type_bare_name_witness :
  get_file_type (py "Holiday.Final.JPEG") = spec_get_file_type (py "Holiday.Final.JPEG").
Proof.
  apply (get_file_type_bare_name (py "Holiday.Final.JPEG")).
  - intros Hin. unfold py in Hin. simpl in Hin.
    repeat (apply elem_of_cons in Hin as [Hin|Hin]; [discriminate|]).
    by apply elem_of_nil in Hin.
  - discriminate.
Defined.

(** X4.  A name is refused by [validate_file_type] exactly when the
    classifier answers [unknown]; an accepted name is reported with its
    category. *)
Theorem validate_file_type_follows_classifier (filename : str) :
  (fst (validate_file_type filename) = false
     <-> get_file_type filename = py "unknown")
  /\ (get_file_type filename <> py "unknown" ->
      validate_file_type filename
      = (true, MsgFileTypeSupported (get_file_type filename))).
Proof.
  unfold validate_file_type. cbn zeta. case_bool_decide as Hu; simpl.
  - split; [tauto | intros Hn; by destruct Hn].
  - split; [split; [discriminate | intros Hk; by destruct Hu] | reflexivity].
Qed.

(** X5.  A batch is refused by [validate_batch_size] exactly when it holds
    more than ten files; a batch of ten passes. *)
Theorem validate_batch_size_limit (file_count : Z) :
  (fst (validate_batch_size file_count) = false <-> file_count > 10)
  /\ (file_count > 10 ->
      validate_batch_size file_count = (false, MsgBatchTooLarge file_count 10))
  /\ validate_batch_size 10 = (true, MsgBatchValid).
Proof.
  unfold validate_batch_size. cbn zeta. split; [|split].
  - case_bool_decide; simpl; split; intros; (done || lia).
  - intros Hgt. by rewrite bool_decide_eq_true_2.
  - reflexivity.
Qed.

Example get_file_type_examples :
  get_file_type (py "Report.PDF") = py "document"
  /\ get_file_type (py "a.tar.gz") = py "unknown"
  /\ get_file_type (py "clip.final.MKV") = py "video"
  /\ get_file_type (py "README") = py "unknown"
  /\ get_file_type (py "trailing.") = py "unknown"
  /\ get_file_type (py "dir.mp3/cover.jpeg") = py "image".
Proof. repeat split; reflexivity. Qed.

(** ** Outcomes of composed computations *)

Section Outcomes.
Context {E : Externals}.

Lemma bind_Ok {A B} (m : M A) (k : A -> M B) w x :
  fst (bind m k w) = Ok x ->
  exists a w1, m w = (Ok a, w1) /\ fst (k a w1) = Ok x.
Proof. unfold bind. destruct (m w) as [[a|e] w1]; [eauto | done]. Qed.

Lemma try_except_Ok {A} (body : M A) (handler : Exc -> M A) w x :
  fst (try_except body handler w) = Ok x ->
  fst (body w) = Ok x
  \/ exists e w1, body w = (Raise e, w1) /\ fst (handler e w1) = Ok x.
Proof. unfold try_except. destruct (body w) as [[a|e] w1]; eauto. Qed.

Lemma try_finally_Ok {A} (body : M A) (cleanup : M unit) w x :
  fst (try_finally body cleanup w) = Ok x -> fst (body w) = Ok x.
Proof.
  unfold try_finally. destruct (body w) as [r w1].
  by destruct (cleanup w1) as [[[]|e] w2].
Qed.

End Outcomes.

(** ** The output file name *)

Section OutputFilename.
Context {E : Externals}.

Lemma document_output_filename input_path output_format original_filename w
      data name mime :
  fst (DocumentConverter.convert input_path output_format original_filename w)
    = Ok (data, name, mime) ->
  name = Path.stem original_filename ++ py "." ++ lower output_format.
Proof.
  unfold DocumentConverter.convert, DocumentConverter._convert_from_txt,
    DocumentConverter._convert_from_pdf, DocumentConverter._convert_from_docx,
    DocumentConverter._get_output_filename, DocumentConverter.read_text,
    DocumentConverter._extract_text_from_pdf,
    DocumentConverter._extract_text_from_docx,
    DocumentConverter._txt_to_pdf, DocumentConverter._txt_to_docx.
  unfold_m. repeat case_bool_decide; subst; by_cases.
Qed.

Lemma image_output_filename input_path output_format original_filename w
      data name mime :
  fst (ImageConverter.convert input_path output_format original_filename w)
    = Ok (data, name, mime) ->
  name = Path.stem original_filename ++ py "." ++ lower output_format.
Proof.
  unfold ImageConverter.convert, ImageConverter._convert_to_jpeg,
    ImageConverter._convert_to_png, ImageConverter._convert_to_gif,
    ImageConverter._convert_to_webp, ImageConverter._convert_to_bmp,
    ImageConverter.save, ImageConverter._get_output_filename.
  unfold_m. by_cases.
Qed.

Lemma export_audio_output_filename audio output_format output_filename w
      data name mime :
  fst (AudioConverter._export_audio audio output_format output_filename w)
    = Ok (data, name, mime) ->
  name = output_filename.
Proof.
  unfold AudioConverter._export_audio, AudioConverter.export,
    remove_if_exists.
  unfold_m. by_cases.
Qed.

Lemma audio_attempt_output_filename (load : M AudioSegment)
      output_format output_filename w data name mime :
  fst ((audio <- load ;;
        AudioConverter._export_audio audio output_format output_filename) w)
    = Ok (data, name, mime) ->
  name = output_filename.
Proof.
  intros (audio & w1 & _ & Hx)%bind_Ok.
  by apply export_audio_output_filename in Hx.
Qed.

Lemma audio_output_filename input_path output_format original_filename w
      data name mime :
  fst (AudioConverter.convert input_path output_format original_filename w)
    = Ok (data, name, mime) ->
  name = Path.stem original_filename ++ py "." ++ lower output_format.
Proof.
  unfold AudioConverter.convert.
  intros [H | (e & w1 & _ & [H | (e2 & w2 & _ & H)]%try_except_Ok)]%try_except_Ok.
  - by apply audio_attempt_output_filename in H.
  - by apply audio_attempt_output_filename in H.
  - done.
Qed.

Lemma video_output_filename input_path output_format original_filename w
      data name mime :
  fst (VideoConverter.convert input_path output_format original_filename w)
    = Ok (data, name, mime) ->
  name = Path.stem original_filename ++ py "." ++ lower output_format.
Proof.
  unfold VideoConverter.convert.
  intros [H | (e & w1 & _ & H)]%try_except_Ok.
  - apply bind_Ok in H as (available & w1 & _ & H).
    destruct available; [|done]. cbn [negb] in H.
    apply bind_Ok in H as (tmp & w2 & _ & H).
    apply try_finally_Ok in H. unfold VideoConverter.run_conversion in H.
    apply bind_Ok in H as (result & w3 & _ & H).
    destruct result as [returncode out err|e]; [|done].
    destruct (negb (returncode =? 0)); [done|].
    apply bind_Ok in H as (video_data & w4 & _ & H).
    by injection H as _ <- _.
  - by destruct (contains (py "FFmpeg") (exc_str e)).
Qed.

End OutputFilename.

(** C2.  Whichever converter runs, a file name it returns is the stem of the
    original file name, a dot, and the target format in lower case. *)
Theorem output_filename_rule {E : Externals} (converter : ConverterClass)
        (input_path output_format original_filename : str) (w : World)
        (data : bytes) (name mime : str) :
  fst (convert_with converter input_path output_format original_filename w)
    = Ok (data, name, mime) ->
  name = Path.stem original_filename ++ py "." ++ lower output_format.
Proof.
  destruct converter; simpl.
  - apply document_output_filename.
  - apply image_output_filename.
  - apply audio_output_filename.
  - apply video_output_filename.
Qed.

(** The document converter writes the target format as it is given; a file
    name comes back only for the three lower-case targets it supports. *)
Lemma document_get_output_filename_keeps_case {E : Externals} :
  DocumentConverter._get_output_filename (py "a.txt") (py "PDF") = py "a.PDF"
  /\ ImageConverter._get_output_filename (py "a.png") (py "JPG") = py "a.jpg"
  /\ forall w, exists e,
       fst (DocumentConverter.convert (py "/tmp/a.txt") (py "PDF") (py "a.txt") w)
       = Raise e.
Proof.
  repeat split. intros w.
  unfold DocumentConverter.convert, DocumentConverter._convert_from_txt,
    DocumentConverter.read_text.
  unfold_m. rewrite (bool_decide_eq_true_2 (extension_of _ = _)) by reflexivity.
  by_cases; eauto.
Qed.

Lemma output_filename_rule_witness :
  (fst (convert_with (E:=all_succeed) DocumentConverterClass (py "/tmp/in.txt")
          (py "pdf") (py "My.Notes.TXT") one_text_file)
     = Ok ([37; 80; 68; 70], py "My.Notes.pdf", py "application/pdf")
   /\ py "My.Notes.pdf" = Path.stem (py "My.Notes.TXT") ++ py "." ++ lower (py "pdf"))
  /\ (fst (convert_with (E:=all_succeed) ImageConverterClass (py "/tmp/in.txt")
             (py "PNG") (py "dir/photo.jpeg") one_text_file)
        = Ok ([104; 105], py "photo.png", py "image/png")
      /\ py "photo.png" = Path.stem (py "dir/photo.jpeg") ++ py "." ++ lower (py "PNG"))
  /\ (fst (convert_with (E:=all_succeed) VideoConverterClass (py "/tmp/in.txt")
             (py "MKV") (py "clip") one_text_file)
        = Ok ([1; 2; 3], py "clip.mkv", py "video/mp4")
      /\ py "clip.mkv" = Path.stem (py "clip") ++ py "." ++ lower (py "MKV")).
Proof.
  split; [|split]; (split; [vm_compute; reflexivity|]).
  - apply (output_filename_rule (E:=all_succeed) DocumentConverterClass
             (py "/tmp/in.txt") (py "pdf") (py "My.Notes.TXT") one_text_file
             [37; 80; 68; 70] (py "My.Notes.pdf") (py "application/pdf")).
    vm_compute; reflexivity.
  - apply (output_filename_rule (E:=all_succeed) ImageConverterClass
             (py "/tmp/in.txt") (py "PNG") (py "dir/photo.jpeg") one_text_file
             [104; 105] (py "photo.png") (py "image/png")).
    vm_compute; reflexivity.
  - apply (output_filename_rule (E:=all_succeed) VideoConverterClass
             (py "/tmp/in.txt") (py "MKV") (py "clip") one_text_file
             [1; 2; 3] (py "clip.mkv") (py "video/mp4")).
    vm_compute; reflexivity.
Defined.

(** ** The document converter: which inputs are passed through *)

Section DocumentPassthrough.
Context {E : Externals}.

Lemma convert_from_pdf_passthrough input_path output_filename w data :
  fs w !! input_path = Some data ->
  DocumentConverter._convert_from_pdf input_path (py "pdf") output_filename w
  = (Ok (data, output_filename, py "application/pdf"),
     logged w [CallRead input_path]).
Proof.
  intros Hdata. unfold DocumentConverter._convert_from_pdf. unfold_m.
  rewrite bool_decide_eq_true_2 by done. by rewrite Hdata.
Qed.

Lemma convert_from_docx_passthrough input_path output_filename w data :
  fs w !! input_path = Some data ->
  DocumentConverter._convert_from_docx input_path (py "docx") output_filename w
  = (Ok (data, output_filename, DocumentConverter.docx_mime),
     logged w [CallRead input_path]).
Proof.
  intros Hdata. unfold DocumentConverter._convert_from_docx. unfold_m.
  rewrite bool_decide_eq_true_2 by done. by rewrite Hdata.
Qed.

Lemma convert_from_pdf_extracts input_path output_format output_filename w data :
  fs w !! input_path = Some data -> output_format <> py "pdf" ->
  CallPdfReader input_path
    ∈ calls (snd (DocumentConverter._convert_from_pdf
                    input_path output_format output_filename w)).
Proof.
  intros Hdata Hfmt.
  unfold DocumentConverter._convert_from_pdf, DocumentConverter._extract_text_from_pdf,
    DocumentConverter._txt_to_docx.
  unfold_m. rewrite bool_decide_eq_false_2 by done. rewrite Hdata.
  by_cases; set_solver.
Qed.

Lemma convert_from_docx_extracts input_path output_format output_filename w data :
  fs w !! input_path = Some data -> output_format <> py "docx" ->
  CallDocxOpen input_path
    ∈ calls (snd (DocumentConverter._convert_from_docx
                    input_path output_format output_filename w)).
Proof.
  intros Hdata Hfmt.
  unfold DocumentConverter._convert_from_docx, DocumentConverter._extract_text_from_docx,
    DocumentConverter._txt_to_pdf.
  unfold_m. rewrite bool_decide_eq_false_2 by done. rewrite Hdata.
  by_cases; set_solver.
Qed.

Lemma convert_pdf_handler input_path output_format original_filename w :
  extension_of input_path = py "pdf" ->
  DocumentConverter.convert input_path output_format original_filename w
  = DocumentConverter._convert_from_pdf input_path output_format
      (Path.stem original_filename ++ py "." ++ output_format) w.
Proof. intros Hext. unfold DocumentConverter.convert. by rewrite Hext. Qed.

Lemma convert_docx_handler input_path output_format original_filename w :
  extension_of input_path = py "doc" \/ extension_of input_path = py "docx" ->
  DocumentConverter.convert input_path output_format original_filename w
  = DocumentConverter._convert_from_docx input_path output_format
      (Path.stem original_filename ++ py "." ++ output_format) w.
Proof.
  intros Hext. unfold DocumentConverter.convert. by destruct Hext as [-> | ->].
Qed.

End DocumentPassthrough.

(** C3 at a failing input.  A Word 97 file, declared [doc], whose bytes open
    with the OLE header D0 CF 11 E0, is converted to [docx].  The converter
    reads the file and returns its bytes as they are, under the name
    [letter.docx] and with the MIME type of [docx]: the read is the only call
    it makes, so no document is opened for text extraction and none is
    rendered.  The same file converted to [pdf] is opened for extraction. *)
Theorem doc_to_docx_returns_input_bytes {E : Externals} :
  let run :=
    DocumentConverter.convert (py "/tmp/in.doc") (py "docx") (py "letter.doc")
      one_doc_file in
  extension_of (py "/tmp/in.doc") = py "doc"
  /\ fst run
     = Ok ([208; 207; 17; 224], py "letter.docx", DocumentConverter.docx_mime)
  /\ calls (snd run) = [CallRead (py "/tmp/in.doc")]
  /\ CallDocxOpen (py "/tmp/in.doc")
       ∈ calls (snd (DocumentConverter.convert (py "/tmp/in.doc") (py "pdf")
                       (py "letter.doc") one_doc_file)).
Proof.
  cbn zeta. split; [reflexivity|]. split; [reflexivity|]. split; [reflexivity|].
  rewrite convert_docx_handler by (left; reflexivity).
  apply (convert_from_docx_extracts _ _ _ _ [208; 207; 17; 224]);
    [reflexivity | discriminate].
Qed.

(** ** The document converter: a format converted to itself *)

Section TextIdentity.
Context {E : Externals}.

(** A text file converted to text is decoded, its line ends normalised,
    and encoded again. *)
Lemma convert_txt_to_txt input_path original_filename w data :
  extension_of input_path = py "txt" ->
  fs w !! input_path = Some data ->
  fst (DocumentConverter.convert input_path (py "txt") original_filename w)
  = match utf8_encode (universal_newlines (utf8_decode_ignore data)) with
    | Some encoded =>
        Ok (encoded, Path.stem original_filename ++ py ".txt", py "text/plain")
    | None =>
        Raise (mkExc UnicodeEncodeError
                 (py "'utf-8' codec can't encode character: surrogates not allowed"))
    end.
Proof.
  intros Hext Hdata. unfold DocumentConverter.convert. rewrite Hext.
  rewrite bool_decide_eq_true_2 by done.
  unfold DocumentConverter._convert_from_txt, DocumentConverter.read_text.
  unfold_m. rewrite Hdata. rewrite bool_decide_eq_true_2 by done.
  by destruct (utf8_encode _).
Qed.

(** Bytes of plain ASCII text without carriage returns survive. *)
Lemma ascii_text_survives (data : bytes) :
  Forall (fun b => 0 <= b < 128 /\ b <> 13) data ->
  utf8_encode (universal_newlines (utf8_decode_ignore data)) = Some data.
Proof.
  induction 1 as [|b r [Hb Hcr] _ IH]; [done|].
  cbn [utf8_decode_ignore].
  assert (Hlt : (b <? 128) = true) by (apply Z.ltb_lt; lia).
  rewrite Hlt. cbn [universal_newlines].
  assert (Hne : (b =? 13) = false) by (by apply Z.eqb_neq).
  rewrite Hne. cbn [utf8_encode]. unfold utf8_encode_char. rewrite Hlt.
  by rewrite IH.
Qed.

(** X2.  A text file of ASCII bytes without carriage return, converted to
    text, comes back byte for byte. *)
Lemma convert_txt_to_txt_ascii input_path original_filename w data :
  extension_of input_path = py "txt" ->
  fs w !! input_path = Some data ->
  Forall (fun b => 0 <= b < 128 /\ b <> 13) data ->
  fst (DocumentConverter.convert input_path (py "txt") original_filename w)
  = Ok (data, Path.stem original_filename ++ py ".txt", py "text/plain").
Proof.
  intros Hext Hdata Hascii. rewrite (convert_txt_to_txt _ _ _ data) by done.
  by rewrite ascii_text_survives.
Qed.

End TextIdentity.

Lemma convert_txt_to_txt_ascii_witness :
  fst (DocumentConverter.convert (E:=all_succeed) (py "/tmp/in.txt") (py "txt")
         (py "notes.txt") one_text_file)
  = Ok ([104; 105], Path.stem (py "notes.txt") ++ py ".txt", py "text/plain").
Proof.
  apply (convert_txt_to_txt_ascii (E:=all_succeed) (py "/tmp/in.txt")
           (py "notes.txt") one_text_file [104; 105]).
  - reflexivity.
  - reflexivity.
  - repeat constructor; lia.
Defined.

(** C1 at a failing input.  A text file holding [a], a carriage return, a
    line feed and [b], converted to text, comes back without the carriage
    return; a text file holding the byte 255 and [a] comes back without the
    byte 255.  Neither output is the input. *)
Theorem txt_to_txt_rewrites_bytes {E : Externals} :
  fst (DocumentConverter.convert (py "/tmp/in.txt") (py "txt") (py "notes.txt")
         (world_with [(py "/tmp/in.txt", [97; 13; 10; 98])]))
    = Ok ([97; 10; 98], py "notes.txt", py "text/plain")
  /\ fst (DocumentConverter.convert (py "/tmp/in.txt") (py "txt") (py "notes.txt")
            (world_with [(py "/tmp/in.txt", [255; 97])]))
     = Ok ([97], py "notes.txt", py "text/plain").
Proof. split; reflexivity. Qed.

(** X1.  A [pdf] file converted to [pdf], and a [docx] file converted to
    [docx], come back byte for byte: these two handlers read the file raw
    when the target is their own format. *)
Lemma pdf_and_docx_identity {E : Externals}
      (input_path original_filename : str) (w : World) (data : bytes) :
  fs w !! input_path = Some data ->
  (extension_of input_path = py "pdf" ->
   fst (DocumentConverter.convert input_path (py "pdf") original_filename w)
   = Ok (data, Path.stem original_filename ++ py ".pdf", py "application/pdf"))
  /\ (extension_of input_path = py "docx" ->
      fst (DocumentConverter.convert input_path (py "docx") original_filename w)
      = Ok (data, Path.stem original_filename ++ py ".docx",
            DocumentConverter.docx_mime)).
Proof.
  intros Hdata. split; intros Hext.
  - rewrite convert_pdf_handler by done.
    by rewrite (convert_from_pdf_passthrough _ _ _ data).
  - rewrite convert_docx_handler by auto.
    by rewrite (convert_from_docx_passthrough _ _ _ data).
Qed.

Lemma pdf_and_docx_identity_witness :
  fst (DocumentConverter.convert (E:=all_succeed) (py "/tmp/in.pdf") (py "pdf")
         (py "paper.pdf") (world_with [(py "/tmp/in.pdf", [37; 80; 68; 70])]))
  = Ok ([37; 80; 68; 70], Path.stem (py "paper.pdf") ++ py ".pdf",
        py "application/pdf").
Proof.
  assert (Hdata : fs (world_with (E:=all_succeed) [(py "/tmp/in.pdf", [37; 80; 68; 70])])
                    !! py "/tmp/in.pdf" = Some [37; 80; 68; 70]) by reflexivity.
  apply (proj1 (pdf_and_docx_identity (E:=all_succeed) (py "/tmp/in.pdf")
                  (py "paper.pdf") _ _ Hdata)).
  reflexivity.
Defined.

(** ** The dispatcher: what a batch leaves behind *)

Section Backstage.
Context {E : Externals}.

Lemma ui_errors_app (cs ds : list Call) :
  ui_errors (cs ++ ds) = ui_errors cs ++ ui_errors ds.
Proof. apply omap_app. Qed.

Lemma backstage_refl w : backstage w w.
Proof. repeat split. exists []. by rewrite app_nil_r. Qed.

Lemma backstage_trans w1 w2 w3 :
  backstage w1 w2 -> backstage w2 w3 -> backstage w1 w3.
Proof.
  intros (Hf & Hh & cs & Hc & Hu) (Hf' & Hh' & cs' & Hc' & Hu').
  repeat split; [congruence | congruence |].
  exists (cs ++ cs'). split.
  - rewrite Hc', Hc. by rewrite app_assoc.
  - by rewrite ui_errors_app, Hu, Hu'.
Qed.

Lemma backstage_logged w cs : ui_errors cs = [] -> backstage w (logged w cs).
Proof. intros Hcs. repeat split. by exists cs. Qed.

Lemma quiet_ret {A} (a : A) : quiet (ret a).
Proof. intros w. apply backstage_refl. Qed.

Lemma quiet_raise {A} (e : Exc) : quiet (raise (A:=A) e).
Proof. intros w. apply backstage_refl. Qed.

Lemma quiet_lift {A} (r : Res A) : quiet (lift r).
Proof. intros w. apply backstage_refl. Qed.

Lemma quiet_bind {A B} (m : M A) (k : A -> M B) :
  quiet m -> (forall a, quiet (k a)) -> quiet (bind m k).
Proof.
  intros Hm Hk w. unfold bind. specialize (Hm w).
  destruct (m w) as [[a|e] w1]; simpl in *; [|done].
  eapply backstage_trans; [exact Hm | apply Hk].
Qed.

Lemma quiet_try_except {A} (body : M A) (handler : Exc -> M A) :
  quiet body -> (forall e, quiet (handler e)) -> quiet (try_except body handler).
Proof.
  intros Hm Hk w. unfold try_except. specialize (Hm w).
  destruct (body w) as [[a|e] w1]; simpl in *; [done|].
  eapply backstage_trans; [exact Hm | apply Hk].
Qed.

Lemma quiet_try_finally {A} (body : M A) (cleanup : M unit) :
  quiet body -> quiet cleanup -> quiet (try_finally body cleanup).
Proof.
  intros Hm Hc w. unfold try_finally. specialize (Hm w).
  destruct (body w) as [r w1]. specialize (Hc w1).
  destruct (cleanup w1) as [[[]|e] w2]; simpl in *;
    eapply backstage_trans; eauto.
Qed.

Lemma quiet_log (c : Call) : ui_error c = None -> quiet (log c).
Proof.
  intros Hc w. apply (backstage_logged w [c]). unfold ui_errors. simpl.
  by rewrite Hc.
Qed.

Lemma quiet_read_file path : quiet (read_file path).
Proof.
  intros w. unfold read_file. destruct (fs w !! path); simpl.
  - by apply (backstage_logged w [CallRead path]).
  - apply backstage_refl.
Qed.

Lemma quiet_write_file path data : quiet (write_file path data).
Proof. intros w. repeat split. by exists [CallWrite path]. Qed.

Lemma quiet_named_temporary_file suffix : quiet (named_temporary_file suffix).
Proof.
  intros w. repeat split. by exists [CallTempFile (temp_path (temp_count w) suffix)].
Qed.

Lemma quiet_path_exists path : quiet (path_exists path).
Proof. intros w. apply backstage_refl. Qed.

Lemma quiet_unlink path : quiet (unlink path).
Proof.
  intros w. unfold unlink. destruct (fs w !! path); simpl.
  - repeat split. by exists [CallUnlink path].
  - apply backstage_refl.
Qed.

Lemma quiet_encode_utf8 s : quiet (encode_utf8 s).
Proof. unfold encode_utf8. destruct (utf8_encode s); [apply quiet_ret | apply quiet_raise]. Qed.

Lemma backstage_set_fs w files : backstage w (set_fs files w).
Proof. repeat split. exists []. simpl. by rewrite app_nil_r. Qed.

End Backstage.

Create HintDb quiet.
#[local] Hint Resolve quiet_ret quiet_raise quiet_lift quiet_read_file
  quiet_write_file quiet_named_temporary_file quiet_path_exists quiet_unlink
  quiet_encode_utf8 : quiet.

Ltac quiet_step :=
  first
    [ solve [auto with quiet]
    | apply quiet_log; reflexivity
    | apply quiet_bind; [|intros]
    | apply quiet_try_except; [|intros]
    | apply quiet_try_finally
    | case_bool_decide
    | case_match ].

Section BackstageConverters.
Context {E : Externals}.

Lemma quiet_document_convert input_path output_format original_filename :
  quiet (DocumentConverter.convert input_path output_format original_filename).
Proof.
  unfold DocumentConverter.convert, DocumentConverter._convert_from_txt,
    DocumentConverter._convert_from_pdf, DocumentConverter._convert_from_docx,
    DocumentConverter.read_text, DocumentConverter._extract_text_from_pdf,
    DocumentConverter._extract_text_from_docx,
    DocumentConverter._txt_to_pdf, DocumentConverter._txt_to_docx.
  cbn zeta. repeat quiet_step.
Qed.

Lemma quiet_image_convert input_path output_format original_filename :
  quiet (ImageConverter.convert input_path output_format original_filename).
Proof.
  unfold ImageConverter.convert, ImageConverter._convert_to_jpeg,
    ImageConverter._convert_to_png, ImageConverter._convert_to_gif,
    ImageConverter._convert_to_webp, ImageConverter._convert_to_bmp,
    ImageConverter.save.
  cbn zeta. repeat quiet_step.
Qed.

Lemma quiet_audio_load loader input_path :
  quiet (AudioConverter.load loader input_path).
Proof.
  unfold AudioConverter.load. repeat quiet_step.
  intros w. destruct (fs w !! input_path); apply backstage_refl.
Qed.

Lemma quiet_audio_export audio path format codec bitrate :
  quiet (AudioConverter.export audio path format codec bitrate).
Proof.
  unfold AudioConverter.export. repeat quiet_step.
  intros w. apply backstage_set_fs.
Qed.

Lemma quiet_export_audio audio output_format output_filename :
  quiet (AudioConverter._export_audio audio output_format output_filename).
Proof.
  unfold AudioConverter._export_audio, remove_if_exists.
  pose proof quiet_audio_export.
  cbn zeta. repeat quiet_step.
Qed.

Lemma quiet_audio_convert input_path output_format original_filename :
  quiet (AudioConverter.convert input_path output_format original_filename).
Proof.
  unfold AudioConverter.convert, AudioConverter.load_by_extension.
  pose proof quiet_audio_load. pose proof quiet_export_audio.
  cbn zeta. repeat quiet_step.
Qed.

Lemma quiet_video_run cmd timeout : quiet (VideoConverter.run cmd timeout).
Proof.
  unfold VideoConverter.run. repeat quiet_step.
  intros w. destruct (subprocess_run cmd timeout (fs w)).
  apply backstage_set_fs.
Qed.

Lemma quiet_video_convert input_path output_format original_filename :
  quiet (VideoConverter.convert input_path output_format original_filename).
Proof.
  unfold VideoConverter.convert, VideoConverter._check_ffmpeg,
    remove_if_exists, VideoConverter.run_conversion.
  pose proof quiet_video_run.
  cbn zeta. repeat quiet_step.
Qed.

Lemma quiet_convert_file uploaded_file output_format file_type :
  quiet (convert_file uploaded_file output_format file_type).
Proof.
  unfold convert_file, convert_with, remove_if_exists.
  pose proof quiet_document_convert. pose proof quiet_image_convert.
  pose proof quiet_audio_convert. pose proof quiet_video_convert.
  cbn zeta. repeat quiet_step.
Qed.

End BackstageConverters.

Section Batch.
Context {E : Externals}.

Lemma convert_file_output_filename uploaded_file output_format file_type w
      data name mime :
  fst (convert_file uploaded_file output_format file_type w)
    = Ok (data, name, mime) ->
  name = Path.stem (uf_name uploaded_file) ++ py "." ++ lower output_format.
Proof.
  unfold convert_file.
  intros (tmp & w1 & _ & (? & w2 & _ & H%try_finally_Ok)%bind_Ok)%bind_Ok.
  cbn zeta in H. unfold convert_with in H.
  repeat case_bool_decide;
    eauto using document_output_filename, image_output_filename,
                audio_output_filename, video_output_filename.
  done.
Qed.

Lemma job_outcome_left total_jobs i job w :
  job_left job (job_outcome total_jobs i job w).
Proof.
  unfold job_outcome, job_left.
  destruct (fst (convert_file _ _ _ _)) as [[[data name] mime]|e] eqn:Hrun;
    [|done].
  case_bool_decide; [|done]. simpl. split; [|done].
  by apply convert_file_output_filename in Hrun.
Qed.

(** One turn of the loop adds what [job_outcome] says, and nothing else,
    to the converted files and to the error messages. *)
Lemma process_job_leaves total_jobs i job w :
  let w' := snd (process_job total_jobs i job w) in
  let o := job_outcome total_jobs i job w in
  converted_files w' = converted_files w ++ option_list (success o)
  /\ exists cs, calls w' = calls w ++ cs
                /\ ui_errors cs = option_list (failure o).
Proof.
  unfold process_job, job_outcome. cbn zeta.
  set (name := uf_name (job_file job)).
  set (started := logged w [UiProgress (i + 1) total_jobs;
                            UiStatusConverting name (i + 1) total_jobs]).
  assert (Hlog : forall (k : M unit),
             (log (UiProgress (i + 1) total_jobs) ;;;
              log (UiStatusConverting name (i + 1) total_jobs) ;;; k) w
             = k started).
  { intros k. unfold bind, log, started, logged. simpl.
    by rewrite <- app_assoc. }
  rewrite Hlog. unfold try_except, bind.
  pose proof (quiet_convert_file (job_file job) (job_output_format job)
                (job_file_type job) started) as (Hfiles & _ & cs & Hcalls & Hquiet).
  destruct (convert_file _ _ _ started) as [[[[data out] mime]|e] w1];
    simpl in *.
  - case_bool_decide; simpl.
    + split; [by rewrite Hfiles|].
      exists ([UiProgress (i + 1) total_jobs;
               UiStatusConverting name (i + 1) total_jobs] ++ cs).
      rewrite Hcalls, ui_errors_app, Hquiet. split; [|done].
      by rewrite <- app_assoc.
    + split; [by rewrite Hfiles, app_nil_r|].
      exists ([UiProgress (i + 1) total_jobs;
               UiStatusConverting name (i + 1) total_jobs] ++ cs).
      rewrite Hcalls, ui_errors_app, Hquiet. split; [|done].
      by rewrite <- app_assoc.
  - split; [by rewrite Hfiles, app_nil_r|].
    exists ([UiProgress (i + 1) total_jobs;
             UiStatusConverting name (i + 1) total_jobs] ++ cs
            ++ [UiError name (exc_str e)]).
    rewrite Hcalls, !ui_errors_app, Hquiet. split; [|done].
    by rewrite <- !app_assoc.
Qed.

(** A failing job never stops the batch. *)
Lemma process_job_returns total_jobs i job w :
  exists w', process_job total_jobs i job w = (Ok tt, w').
Proof.
  unfold process_job, try_except, bind, log. simpl.
  by_cases; eauto.
Qed.

Lemma process_jobs_returns total_jobs i jobs w :
  exists w', process_jobs total_jobs i jobs w = (Ok tt, w').
Proof.
  revert i w; induction jobs as [|job rest IH]; intros i w; simpl; [by eexists|].
  destruct (process_job_returns total_jobs i job w) as [w1 Hjob].
  unfold bind. rewrite Hjob. apply IH.
Qed.

Lemma process_jobs_leave total_jobs i jobs w :
  let w' := snd (process_jobs total_jobs i jobs w) in
  let os := job_outcomes total_jobs i jobs w in
  converted_files w' = converted_files w ++ omap success os
  /\ exists cs, calls w' = calls w ++ cs /\ ui_errors cs = omap failure os.
Proof.
  revert i w; induction jobs as [|job rest IH]; intros i w; cbn zeta.
  - simpl. split; [by rewrite app_nil_r|]. exists []. by rewrite app_nil_r.
  - pose proof (process_job_leaves total_jobs i job w) as (Hf & cs & Hc & Hu).
    cbn zeta in Hf, Hc, Hu. cbn [job_outcomes].
    destruct (process_job_returns total_jobs i job w) as [w1 Hjob].
    rewrite Hjob in *.
    assert (Hstep : process_jobs total_jobs i (job :: rest) w
                    = process_jobs total_jobs (i + 1) rest w1).
    { cbn [process_jobs]. unfold bind. by rewrite Hjob. }
    rewrite Hstep. cbn [snd] in *.
    destruct (IH (i + 1) w1) as (Hf' & cs' & Hc' & Hu').
    split.
    + rewrite Hf', Hf, <- app_assoc. f_equal. simpl.
      by destruct (success (job_outcome total_jobs i job w)).
    + exists (cs ++ cs'). rewrite Hc', Hc, ui_errors_app, Hu, Hu'.
      split; [by rewrite app_assoc|]. simpl.
      by destruct (failure (job_outcome total_jobs i job w)).
Qed.

Lemma job_outcomes_length total_jobs i jobs w :
  length (job_outcomes total_jobs i jobs w) = length jobs.
Proof.
  revert i w; induction jobs as [|job rest IH]; intros i w; simpl; [done|].
  by rewrite IH.
Qed.

Lemma job_outcomes_left total_jobs i jobs w k job :
  jobs !! k = Some job ->
  exists o, job_outcomes total_jobs i jobs w !! k = Some o /\ job_left job o.
Proof.
  revert i w k; induction jobs as [|j rest IH]; intros i w k; [done|].
  destruct k as [|k]; simpl.
  - intros [= ->]. eauto using job_outcome_left.
  - apply IH.
Qed.

Lemma outcomes_count (os : list (option Outcome)) :
  (length (omap success os) + length (omap failure os)
   + length (filter (fun o => o = None) os) = length os)%nat.
Proof.
  induction os as [|[[file|name message]|] os IH]; [done| | |].
  - rewrite filter_cons_False by done. simpl. f_equal. exact IH.
  - rewrite filter_cons_False by done. simpl. rewrite Nat.add_succ_r. simpl.
    f_equal. exact IH.
  - rewrite filter_cons_True by done. simpl. rewrite Nat.add_succ_r.
    f_equal. exact IH.
Qed.

End Batch.

(** C4, as the dispatcher is written.  Job number [k] of a batch leaves what
    [job_outcomes] holds at index [k]: a converted file named after the job,
    an error message naming the job, or nothing, the last when its conversion
    returned no bytes.  The converted files and the error messages the batch
    adds are these, in the order of the jobs, so that a failing job does not
    stop or displace the others, and the jobs that left something and those
    that left nothing add up to the batch. *)
Theorem process_conversions_outcomes {E : Externals} (jobs : list Job) (w : World) :
  let total_jobs := Z.of_nat (length jobs) in
  let w' := snd (process_conversions jobs w) in
  let os := job_outcomes total_jobs 0 jobs (logged w [UiProgress 0 total_jobs]) in
  length os = length jobs
  /\ converted_files w' = converted_files w ++ omap success os
  /\ ui_errors (calls w') = ui_errors (calls w) ++ omap failure os
  /\ (forall k job, jobs !! k = Some job ->
        exists o, os !! k = Some o /\ job_left job o)
  /\ (length (omap success os) + length (omap failure os)
      + length (filter (fun o => o = None) os) = length jobs)%nat.
Proof.
  intros total_jobs w' os.
  assert (Hlen : length os = length jobs) by apply job_outcomes_length.
  split; [exact Hlen|].
  assert (Hrun : w' = logged (snd (process_jobs total_jobs 0 jobs
                                     (logged w [UiProgress 0 total_jobs])))
                        [UiStatusAllCompleted; UiSleep 1; UiClear; UiClear; UiRerun]).
  { subst w'. unfold process_conversions. fold total_jobs.
    unfold bind at 1. unfold log at 1. cbn [fst snd].
    change (mkWorld (fs w) (temp_count w) (calls w ++ [UiProgress 0 total_jobs])
              (converted_files w) (conversion_history w))
      with (logged w [UiProgress 0 total_jobs]).
    unfold bind at 1.
    destruct (process_jobs_returns total_jobs 0 jobs
                (logged w [UiProgress 0 total_jobs])) as [w1 ->].
    unfold bind, log, logged. simpl. by rewrite <- !app_assoc. }
  destruct (process_jobs_leave total_jobs 0 jobs (logged w [UiProgress 0 total_jobs]))
    as (Hf & cs & Hc & Hu). cbn zeta in Hf, Hc, Hu. fold os in Hf, Hu.
  split; [by rewrite Hrun|].
  split.
  { rewrite Hrun. simpl. rewrite Hc. simpl.
    rewrite !ui_errors_app, Hu. simpl. by rewrite !app_nil_r. }
  split; [apply job_outcomes_left|].
  rewrite <- Hlen. apply outcomes_count.
Qed.

(** C4 as stated fails: the conversion of an empty text file returns no
    bytes, and the batch of that one job leaves neither a converted file nor
    an error message. *)
Lemma process_conversions_drops_empty_output :
  length [empty_text_job] = 1%nat
  /\ job_outcomes (E:=all_succeed) 1 0 [empty_text_job]
       (logged (world_with []) [UiProgress 0 1]) = [None]
  /\ converted_files
       (snd (process_conversions (E:=all_succeed) [empty_text_job] (world_with [])))
     = []
  /\ ui_errors
       (calls (snd (process_conversions (E:=all_succeed) [empty_text_job]
                      (world_with []))))
     = [].
Proof. repeat split; vm_compute; reflexivity. Qed.

Lemma process_conversions_outcomes_witness :
  converted_files
    (snd (process_conversions (E:=tools_fail) text_and_video_jobs (world_with [])))
  = [mkConvertedFile (py "a.txt") [104; 105] (py "text/plain")]
  /\ map fst (ui_errors
       (calls (snd (process_conversions (E:=tools_fail) text_and_video_jobs
                      (world_with [])))))
     = [py "clip.mp4"].
Proof.
  destruct (process_conversions_outcomes (E:=tools_fail) text_and_video_jobs
              (world_with [])) as (_ & Hfiles & Herrors & _).
  cbn zeta in Hfiles, Herrors. rewrite Hfiles, Herrors.
  split; vm_compute; reflexivity.
Defined.

(** ** Temporary files of the audio and video converters *)

Section TemporaryFiles.
Context {E : Externals}.

Lemma temp_files_app cs ds : temp_files (cs ++ ds) = temp_files cs ++ temp_files ds.
Proof. apply omap_app. Qed.

Lemma no_temp_created_refl w : no_temp_created w w.
Proof. exists []. by rewrite app_nil_r. Qed.

Lemma no_temp_created_trans w1 w2 w3 :
  no_temp_created w1 w2 -> no_temp_created w2 w3 -> no_temp_created w1 w3.
Proof.
  intros (cs & Hc & Ht) (cs' & Hc' & Ht'). exists (cs ++ cs').
  rewrite Hc', Hc, temp_files_app, Ht, Ht'. by rewrite app_assoc.
Qed.

Lemma no_temp_created_cleaned_up w w' : no_temp_created w w' -> cleaned_up w w'.
Proof.
  intros (cs & Hc & Ht). exists cs. split; [done|]. rewrite Ht.
  intros path Hin. by apply elem_of_nil in Hin.
Qed.

(** The [finally] block leaves no file at the path it guards. *)
Lemma remove_if_exists_gone (path : str) (w : World) :
  let w' := snd (remove_if_exists path w) in
  fs w' !! path = None
  /\ no_temp_created w w'
  /\ fst (remove_if_exists path w) = Ok tt.
Proof.
  unfold remove_if_exists. unfold_m.
  case_bool_decide as Hex; simpl.
  - destruct Hex as [data Hdata]. rewrite Hdata. simpl.
    rewrite lookup_delete_eq. split; [done|]. split; [|done].
    by exists [CallUnlink path].
  - split; [by apply eq_None_not_Some|]. split; [|done].
    apply no_temp_created_refl.
Qed.

Lemma try_finally_removes {A} (body : M A) (path : str) (w : World) :
  let w' := snd (try_finally body (remove_if_exists path) w) in
  fs w' !! path = None /\ no_temp_created (snd (body w)) w'.
Proof.
  unfold try_finally. destruct (body w) as [r w1]. cbn zeta. simpl.
  destruct (remove_if_exists_gone path w1) as (Hgone & Hcalls & Hok).
  cbn zeta in *.
  by destruct (remove_if_exists path w1) as [[[]|e] w2].
Qed.

Lemma video_run_calls cmd timeout w :
  calls (snd (VideoConverter.run cmd timeout w)) = calls w ++ [CallRun cmd timeout]
  /\ exists outcome, fst (VideoConverter.run cmd timeout w) = Ok outcome.
Proof.
  unfold VideoConverter.run. unfold_m.
  destruct (subprocess_run cmd timeout _). simpl. eauto.
Qed.

Lemma video_run_no_temp cmd timeout w :
  no_temp_created w (snd (VideoConverter.run cmd timeout w)).
Proof.
  destruct (video_run_calls cmd timeout w) as [Hc _]. by eexists.
Qed.

Lemma check_ffmpeg_no_temp w :
  no_temp_created w (snd (VideoConverter._check_ffmpeg w)).
Proof.
  unfold VideoConverter._check_ffmpeg, bind.
  pose proof (video_run_no_temp (map py ["ffmpeg"; "-version"]%string) 10 w) as Hrun.
  destruct (VideoConverter.run _ 10 w) as [[[rc out err|e]|e] w0]; simpl in *;
    [done | | done].
  by destruct (exc_class e).
Qed.

Lemma run_conversion_no_temp input_path tmp output_format output_filename w :
  no_temp_created w
    (snd (VideoConverter.run_conversion input_path tmp output_format
            output_filename w)).
Proof.
  unfold VideoConverter.run_conversion, bind. cbn zeta.
  pose proof (video_run_no_temp
                (VideoConverter._build_ffmpeg_command input_path tmp output_format)
                300 w) as Hrun.
  destruct (VideoConverter.run _ 300 w) as [[[rc out err|e]|e] w0]; simpl in *;
    [|done|done].
  destruct (negb (rc =? 0)); [done|].
  unfold read_file, ret. destruct (fs w0 !! tmp); simpl; [|done].
  eapply no_temp_created_trans; [exact Hrun|]. by exists [CallRead tmp].
Qed.

Lemma no_temp_then_cleaned_up w1 w2 w3 :
  no_temp_created w1 w2 -> cleaned_up w2 w3 -> cleaned_up w1 w3.
Proof.
  intros (cs & Hc & Ht) (cs' & Hc' & Hgone). exists (cs ++ cs'). split.
  - rewrite Hc', Hc. by rewrite app_assoc.
  - intros path. rewrite temp_files_app, Ht. apply Hgone.
Qed.

(** A temporary file guarded by the [finally] block is gone when the block
    is left, whatever its body did. *)
Lemma with_temporary_file_cleaned_up {A} (suffix : str) (body : str -> M A) w :
  (forall tmp w1, no_temp_created w1 (snd (body tmp w1))) ->
  cleaned_up w
    (snd ((tmp <- named_temporary_file suffix ;;
           try_finally (body tmp) (remove_if_exists tmp)) w)).
Proof.
  intros Hbody. unfold bind, named_temporary_file.
  set (tmp := temp_path (temp_count w) suffix).
  set (w1 := mkWorld _ _ _ _ _).
  destruct (try_finally_removes (body tmp) tmp w1) as (Hgone & cs & Hcs & Htemps).
  destruct (Hbody tmp w1) as (ds & Hds & Htds).
  cbn zeta in *. exists ([CallTempFile tmp] ++ ds ++ cs). split.
  - rewrite Hcs, Hds. subst w1. simpl. by rewrite <- !app_assoc.
  - intros path. rewrite !temp_files_app, Htds, Htemps. simpl.
    intros ->%list_elem_of_singleton. exact Hgone.
Qed.

Lemma video_convert_cleaned_up input_path output_format original_filename w :
  cleaned_up w (snd (VideoConverter.convert input_path output_format
                       original_filename w)).
Proof.
  unfold VideoConverter.convert. cbn zeta. unfold try_except.
  match goal with |- context [bind ?m ?k w] => set (body := bind m k) end.
  assert (Hbody : cleaned_up w (snd (body w))).
  { subst body. unfold bind at 1.
    pose proof (check_ffmpeg_no_temp w) as Hcheck.
    destruct (VideoConverter._check_ffmpeg w) as [[available|e] w0];
      cbn [snd] in Hcheck; [|by apply no_temp_created_cleaned_up].
    destruct available; cbn [negb];
      [|by apply no_temp_created_cleaned_up].
    eapply no_temp_then_cleaned_up; [exact Hcheck|].
    apply (with_temporary_file_cleaned_up (py "." ++ output_format)
             (fun tmp => VideoConverter.run_conversion input_path tmp output_format
                           (VideoConverter._get_output_filename
                              original_filename output_format))).
    intros tmp w1. apply run_conversion_no_temp. }
  destruct (body w) as [[r|e] w1]; cbn [snd] in *; [exact Hbody|].
  by destruct (contains (py "FFmpeg") (exc_str e)).
Qed.

(** The audio converter makes up to two attempts, each with a temporary
    file of its own.  [tidy] adds to [cleaned_up] that no path that was
    free became a file, so that the file of the first attempt is still gone
    after the second. *)
Lemma tidy_refl w : tidy w w.
Proof.
  exists []. rewrite app_nil_r. repeat split; [|done].
  intros path Hin. by apply elem_of_nil in Hin.
Qed.

Lemma tidy_trans w1 w2 w3 : tidy w1 w2 -> tidy w2 w3 -> tidy w1 w3.
Proof.
  intros (cs & Hc & Hgone & Hfree) (cs' & Hc' & Hgone' & Hfree').
  exists (cs ++ cs'). split; [|split].
  - rewrite Hc', Hc. by rewrite app_assoc.
  - intros path. rewrite temp_files_app, elem_of_app. intros [Hin | Hin]; auto.
  - auto.
Qed.

Lemma tidy_cleaned_up w w' : tidy w w' -> cleaned_up w w'.
Proof. intros (cs & Hc & Hgone & _). by exists cs. Qed.

Lemma tidy_same_files w w' :
  no_temp_created w w' -> fs w' = fs w -> tidy w w'.
Proof.
  intros (cs & Hc & Ht) Hfs. exists cs. split; [done|]. split.
  - rewrite Ht. intros path Hin. by apply elem_of_nil in Hin.
  - by rewrite Hfs.
Qed.

Lemma tidy_bind {A B} (m : M A) (k : A -> M B) w :
  tidy w (snd (m w)) -> (forall a w1, tidy w1 (snd (k a w1))) ->
  tidy w (snd (bind m k w)).
Proof.
  intros Hm Hk. unfold bind. destruct (m w) as [[a|e] w1]; [|done].
  eapply tidy_trans; [exact Hm | apply Hk].
Qed.

Lemma tidy_try_except {A} (body : M A) (handler : Exc -> M A) w :
  tidy w (snd (body w)) -> (forall e w1, tidy w1 (snd (handler e w1))) ->
  tidy w (snd (try_except body handler w)).
Proof.
  intros Hm Hk. unfold try_except. destruct (body w) as [[a|e] w1]; [done|].
  eapply tidy_trans; [exact Hm | apply Hk].
Qed.

Lemma remove_if_exists_frame (tmp path : str) (w : World) :
  fs w !! path = None -> fs (snd (remove_if_exists tmp w)) !! path = None.
Proof.
  intros Hfree. unfold remove_if_exists. unfold_m.
  case_bool_decide as Hex; simpl; [|done].
  destruct Hex as [data Hdata]. rewrite Hdata. simpl.
  rewrite lookup_delete. by case_decide.
Qed.

(** A temporary file guarded by the [finally] block, around a body that
    writes nowhere else. *)
Lemma with_temporary_file_tidy {A} (suffix : str) (body : str -> M A) w :
  (forall tmp, confined tmp (body tmp)) ->
  tidy w
    (snd ((tmp <- named_temporary_file suffix ;;
           try_finally (body tmp) (remove_if_exists tmp)) w)).
Proof.
  intros Hbody. unfold bind, named_temporary_file.
  set (tmp := temp_path (temp_count w) suffix).
  set (w1 := mkWorld _ _ _ _ _).
  destruct (try_finally_removes (body tmp) tmp w1) as (Hgone & cs & Hcs & Htemps).
  destruct (Hbody tmp w1) as ((ds & Hds & Htds) & Hframe).
  cbn zeta in *. exists ([CallTempFile tmp] ++ ds ++ cs). split; [|split].
  - rewrite Hcs, Hds. subst w1. simpl. by rewrite <- !app_assoc.
  - intros path. rewrite !temp_files_app, Htds, Htemps. simpl.
    intros ->%list_elem_of_singleton. exact Hgone.
  - intros path Hfree. destruct (decide (path = tmp)) as [->|Hne]; [done|].
    unfold try_finally. specialize (Hframe path Hne).
    destruct (body tmp w1) as [r w2]. cbn [snd] in Hframe.
    pose proof (remove_if_exists_frame tmp path w2) as Hrm.
    destruct (remove_if_exists tmp w2) as [[[]|e] w3]; cbn [snd] in *;
      apply Hrm; rewrite Hframe; subst w1; simpl; by rewrite lookup_insert_ne.
Qed.

Lemma confined_ret {A} tmp (a : A) : confined tmp (ret a).
Proof. intros w. split; [apply no_temp_created_refl | done]. Qed.

Lemma confined_raise {A} tmp (e : Exc) : confined tmp (raise (A:=A) e).
Proof. intros w. split; [apply no_temp_created_refl | done]. Qed.

Lemma confined_bind {A B} tmp (m : M A) (k : A -> M B) :
  confined tmp m -> (forall a, confined tmp (k a)) -> confined tmp (bind m k).
Proof.
  intros Hm Hk w. unfold bind. destruct (Hm w) as [Hcalls Hfiles].
  destruct (m w) as [[a|e] w1]; cbn [snd] in *; [|done].
  destruct (Hk a w1) as [Hcalls' Hfiles']. split.
  - by eapply no_temp_created_trans.
  - intros other Hne. rewrite Hfiles', Hfiles; done.
Qed.

Lemma confined_read_file tmp path : confined tmp (read_file path).
Proof.
  intros w. unfold read_file. destruct (fs w !! path); simpl; (split; [|done]).
  - by exists [CallRead path].
  - apply no_temp_created_refl.
Qed.

Lemma confined_export audio tmp format codec bitrate :
  confined tmp (AudioConverter.export audio tmp format codec bitrate).
Proof.
  intros w. unfold AudioConverter.export, bind, log, lift. simpl.
  destruct (audio_export audio format codec bitrate) as [data|e]; simpl.
  - split; [by exists [CallAudioExport tmp format codec bitrate]|].
    intros other Hne. by rewrite lookup_insert_ne.
  - split; [by exists [CallAudioExport tmp format codec bitrate]|done].
Qed.

Lemma audio_load_tidy loader input_path w :
  tidy w (snd (AudioConverter.load loader input_path w)).
Proof.
  apply tidy_same_files.
  - unfold AudioConverter.load, bind, log. simpl.
    destruct (fs w !! input_path); by exists [CallAudioLoad loader input_path].
  - unfold AudioConverter.load, bind, log. simpl.
    by destruct (fs w !! input_path).
Qed.

Lemma export_audio_tidy audio output_format output_filename w :
  tidy w (snd (AudioConverter._export_audio audio output_format
                 output_filename w)).
Proof.
  unfold AudioConverter._export_audio.
  apply with_temporary_file_tidy. intros tmp.
  apply confined_bind.
  - repeat (case_bool_decide; [apply confined_export|]).
    apply confined_raise.
  - intros _. apply confined_bind; [apply confined_read_file|].
    intros audio_data. apply confined_ret.
Qed.

Lemma audio_attempt_tidy (load : M AudioSegment) output_format output_filename w :
  (forall w0, tidy w0 (snd (load w0))) ->
  tidy w (snd ((audio <- load ;;
                AudioConverter._export_audio audio output_format
                  output_filename) w)).
Proof.
  intros Hload. apply tidy_bind; [apply Hload|].
  intros audio w1. apply export_audio_tidy.
Qed.

Lemma audio_convert_tidy input_path output_format original_filename w :
  tidy w (snd (AudioConverter.convert input_path output_format
                 original_filename w)).
Proof.
  unfold AudioConverter.convert. cbn zeta.
  apply tidy_try_except.
  - apply audio_attempt_tidy. intros w0.
    unfold AudioConverter.load_by_extension.
    repeat case_bool_decide; apply audio_load_tidy.
  - intros e w1. apply tidy_try_except.
    + apply audio_attempt_tidy. intros w0. apply audio_load_tidy.
    + intros e2 w2. apply tidy_refl.
Qed.

Lemma elem_of_temp_files path cs : path ∈ temp_files cs <-> CallTempFile path ∈ cs.
Proof.
  unfold temp_files. rewrite list_elem_of_omap. split.
  - intros (c & Hin & Hc). destruct c; simpl in Hc; try discriminate.
    by injection Hc as ->.
  - intros Hin. by exists (CallTempFile path).
Qed.

End TemporaryFiles.

(** C9.  When a video or an audio conversion ends, by a result or by an
    exception, every temporary file it created in between is gone. *)
Theorem temporary_output_removed {E : Externals}
        (input_path output_format original_filename : str) (w : World) :
  (let w' := snd (VideoConverter.convert input_path output_format
                    original_filename w) in
   exists cs, calls w' = calls w ++ cs
              /\ forall path, CallTempFile path ∈ cs -> fs w' !! path = None)
  /\ (let w' := snd (AudioConverter.convert input_path output_format
                       original_filename w) in
      exists cs, calls w' = calls w ++ cs
                 /\ forall path, CallTempFile path ∈ cs -> fs w' !! path = None).
Proof.
  split; cbn zeta.
  - destruct (video_convert_cleaned_up input_path output_format
                original_filename w) as (cs & Hc & Hgone).
    exists cs. split; [done|]. intros path Hin. by apply Hgone, elem_of_temp_files.
  - destruct (tidy_cleaned_up _ _
                (audio_convert_tidy input_path output_format original_filename w))
      as (cs & Hc & Hgone).
    exists cs. split; [done|]. intros path Hin. by apply Hgone, elem_of_temp_files.
Qed.

Lemma temporary_output_removed_witness :
  CallTempFile (py "/tmp/tmp0.avi")
    ∈ calls (snd (VideoConverter.convert (E:=tools_fail) (py "/tmp/in.mp4")
                    (py "avi") (py "clip.mp4") one_video_file))
  /\ fs (snd (VideoConverter.convert (E:=tools_fail) (py "/tmp/in.mp4")
                (py "avi") (py "clip.mp4") one_video_file))
       !! py "/tmp/tmp0.avi" = None
  /\ CallTempFile (py "/tmp/tmp1.mp3")
       ∈ calls (snd (AudioConverter.convert (E:=tools_fail) (py "/tmp/in.mp4")
                       (py "mp3") (py "clip.mp4") one_video_file))
  /\ fs (snd (AudioConverter.convert (E:=tools_fail) (py "/tmp/in.mp4")
                (py "mp3") (py "clip.mp4") one_video_file))
       !! py "/tmp/tmp1.mp3" = None.
Proof.
  destruct (temporary_output_removed (E:=tools_fail) (py "/tmp/in.mp4")
              (py "avi") (py "clip.mp4") one_video_file)
    as [(cs & Hcalls & Hgone) _].
  destruct (temporary_output_removed (E:=tools_fail) (py "/tmp/in.mp4")
              (py "mp3") (py "clip.mp4") one_video_file)
    as [_ (ds & Hcalls' & Hgone')].
  cbn zeta in *. change (calls one_video_file) with (@nil Call) in *.
  rewrite app_nil_l in Hcalls, Hcalls'.
  assert (Hvideo : CallTempFile (py "/tmp/tmp0.avi") ∈ cs).
  { rewrite <- Hcalls. vm_compute.
    repeat first [apply list_elem_of_here | apply list_elem_of_further]. }
  assert (Haudio : CallTempFile (py "/tmp/tmp1.mp3") ∈ ds).
  { rewrite <- Hcalls'. vm_compute.
    repeat first [apply list_elem_of_here | apply list_elem_of_further]. }
  split; [|split; [|split]].
  - by rewrite Hcalls.
  - by apply Hgone.
  - by rewrite Hcalls'.
  - by apply Hgone'.
Defined.

(** ** The video converter and the command-line tool *)

Section VideoCommand.
Context {E : Externals}.

Lemma build_ffmpeg_command_shape input_path output_path output_format :
  exists codec_args,
    VideoConverter._build_ffmpeg_command input_path output_path output_format
    = [py "ffmpeg"; py "-i"; input_path; py "-y"] ++ codec_args ++ [output_path].
Proof.
  unfold VideoConverter._build_ffmpeg_command. cbn zeta.
  repeat (case_bool_decide; [by eexists|]). by exists [].
Qed.

(** The conversion proper, once the tool has answered the version query:
    one temporary file, one run of the tool with a timeout of 300 seconds,
    then at most a read and the removal of the temporary file. *)
Lemma video_convert_runs_once input_path output_format original_filename w w0 :
  VideoConverter._check_ffmpeg w = (Ok true, w0) ->
  let tmp := temp_path (temp_count w0) (py "." ++ output_format) in
  let cmd := VideoConverter._build_ffmpeg_command input_path tmp output_format in
  exists rest,
    calls (snd (VideoConverter.convert input_path output_format
                  original_filename w))
    = calls w0 ++ [CallTempFile tmp; CallRun cmd 300] ++ rest
    /\ forallb (fun c => negb (is_run c)) rest = true.
Proof.
  intros Hcheck tmp cmd. unfold VideoConverter.convert. cbn zeta.
  unfold try_except, bind at 1. rewrite Hcheck. cbn [negb].
  unfold bind at 1, named_temporary_file at 1. fold tmp.
  unfold try_finally, VideoConverter.run_conversion. cbn zeta. fold cmd.
  unfold bind at 1, VideoConverter.run at 1, bind at 1, log at 1. cbn [fst snd].
  destruct (subprocess_run cmd 300 _) as [outcome files].
  unfold remove_if_exists. unfold_m. cbn [fs calls set_fs].
  destruct outcome as [rc out err|e]; by_cases;
    cbn [calls]; rewrite <- ?app_assoc; cbn [app];
    eexists; (split; [reflexivity|]); reflexivity.
Qed.

Lemma video_convert_nonzero_exit input_path output_format original_filename
      w w0 rc out err files :
  VideoConverter._check_ffmpeg w = (Ok true, w0) ->
  let tmp := temp_path (temp_count w0) (py "." ++ output_format) in
  let cmd := VideoConverter._build_ffmpeg_command input_path tmp output_format in
  subprocess_run cmd 300 (<[tmp := []]> (fs w0)) = (Completed rc out err, files) ->
  rc <> 0 ->
  exists e, fst (VideoConverter.convert input_path output_format
                   original_filename w) = Raise e.
Proof.
  intros Hcheck tmp cmd Hrun Hrc. unfold VideoConverter.convert. cbn zeta.
  unfold try_except, bind at 1. rewrite Hcheck. cbn [negb].
  unfold bind at 1, named_temporary_file at 1. fold tmp.
  unfold try_finally, VideoConverter.run_conversion. cbn zeta. fold cmd.
  unfold bind at 1, VideoConverter.run at 1, bind at 1, log at 1. cbn [fst snd fs].
  rewrite Hrun. cbn [fst snd].
  assert (Hne : negb (rc =? 0) = true) by (apply negb_true_iff, Z.eqb_neq, Hrc).
  rewrite Hne. unfold remove_if_exists. unfold_m. by_cases; eauto.
Qed.

Lemma video_convert_run_raises input_path output_format original_filename
      w w0 e files :
  VideoConverter._check_ffmpeg w = (Ok true, w0) ->
  let tmp := temp_path (temp_count w0) (py "." ++ output_format) in
  let cmd := VideoConverter._build_ffmpeg_command input_path tmp output_format in
  subprocess_run cmd 300 (<[tmp := []]> (fs w0)) = (ProcRaise e, files) ->
  exists e', fst (VideoConverter.convert input_path output_format
                    original_filename w) = Raise e'.
Proof.
  intros Hcheck tmp cmd Hrun. unfold VideoConverter.convert. cbn zeta.
  unfold try_except, bind at 1. rewrite Hcheck. cbn [negb].
  unfold bind at 1, named_temporary_file at 1. fold tmp.
  unfold try_finally, VideoConverter.run_conversion. cbn zeta. fold cmd.
  unfold bind at 1, VideoConverter.run at 1, bind at 1, log at 1. cbn [fst snd fs].
  rewrite Hrun. cbn [fst snd].
  unfold remove_if_exists. unfold_m. by_cases; eauto.
Qed.

End VideoCommand.

(** C8.  The command line is the tool name, [-i] and the input, [-y], the
    codec arguments of the target format, and the output path last.  Once
    the tool has answered the version query, [convert] creates one temporary
    output file and runs the tool once, on that command line with a timeout
    of 300 seconds; a nonzero exit code, like an exception of the run, makes
    [convert] raise. *)
Theorem video_tool_contract {E : Externals}
        (input_path output_path output_format original_filename : str)
        (w w0 : World) :
  let build := VideoConverter._build_ffmpeg_command input_path output_path in
  let base := [py "ffmpeg"; py "-i"; input_path; py "-y"] in
  build (py "mp4")
    = base ++ map py ["-c:v"; "libx264"; "-c:a"; "aac"; "-preset"; "medium";
                      "-crf"; "23"; "-movflags"; "+faststart"]%string
           ++ [output_path]
  /\ build (py "avi")
    = base ++ map py ["-c:v"; "libx264"; "-c:a"; "mp3"; "-preset"; "medium";
                      "-crf"; "23"]%string
           ++ [output_path]
  /\ build (py "mov")
    = base ++ map py ["-c:v"; "libx264"; "-c:a"; "aac"; "-preset"; "medium";
                      "-crf"; "23"]%string
           ++ [output_path]
  /\ build (py "mkv")
    = base ++ map py ["-c:v"; "libx264"; "-c:a"; "aac"; "-preset"; "medium";
                      "-crf"; "23"]%string
           ++ [output_path]
  /\ build (py "webm")
    = base ++ map py ["-c:v"; "libvpx-vp9"; "-c:a"; "libopus"; "-crf"; "30";
                      "-b:v"; "0"]%string
           ++ [output_path]
  /\ (exists codec_args, build output_format = base ++ codec_args ++ [output_path])
  /\ (VideoConverter._check_ffmpeg w = (Ok true, w0) ->
      let tmp := temp_path (temp_count w0) (py "." ++ output_format) in
      let cmd := VideoConverter._build_ffmpeg_command input_path tmp output_format in
      let run := VideoConverter.convert input_path output_format original_filename w in
      (exists rest,
          calls (snd run) = calls w0 ++ [CallTempFile tmp; CallRun cmd 300] ++ rest
          /\ forallb (fun c => negb (is_run c)) rest = true)
      /\ (forall rc out err files,
             subprocess_run cmd 300 (<[tmp := []]> (fs w0))
               = (Completed rc out err, files) ->
             rc <> 0 -> exists e, fst run = Raise e)
      /\ (forall e files,
             subprocess_run cmd 300 (<[tmp := []]> (fs w0)) = (ProcRaise e, files) ->
             exists e', fst run = Raise e')).
Proof.
  intros build base. do 5 (split; [reflexivity|]).
  split; [apply build_ffmpeg_command_shape|].
  intros Hcheck tmp cmd run. split; [|split].
  - by apply video_convert_runs_once.
  - intros rc out err files. by apply video_convert_nonzero_exit.
  - intros e files. by apply video_convert_run_raises.
Qed.

Lemma video_tool_contract_witness :
  VideoConverter._check_ffmpeg (E:=tools_fail) one_video_file
    = (Ok true, logged one_video_file
                  [CallRun (map py ["ffmpeg"; "-version"]%string) 10])
  /\ subprocess_run (Externals:=tools_fail)
       (VideoConverter._build_ffmpeg_command (py "/tmp/in.mp4")
          (py "/tmp/tmp0.avi") (py "avi"))
       300
       (<[py "/tmp/tmp0.avi" := []]> (fs (one_video_file (E:=tools_fail))))
     = (Completed 1 [] (py "Invalid data found when processing input"),
        <[py "/tmp/tmp0.avi" := []]> (fs (one_video_file (E:=tools_fail))))
  /\ exists e,
       fst (VideoConverter.convert (E:=tools_fail) (py "/tmp/in.mp4") (py "avi")
              (py "clip.mp4") one_video_file) = Raise e.
Proof.
  assert (Hcheck : VideoConverter._check_ffmpeg (E:=tools_fail) one_video_file
                   = (Ok true, logged one_video_file
                                 [CallRun (map py ["ffmpeg"; "-version"]%string) 10]))
    by reflexivity.
  split; [exact Hcheck|]. split; [reflexivity|].
  destruct (video_tool_contract (E:=tools_fail) (py "/tmp/in.mp4")
              (py "/tmp/out.avi") (py "avi") (py "clip.mp4") one_video_file
              (logged one_video_file
                 [CallRun (map py ["ffmpeg"; "-version"]%string) 10]))
    as (_ & _ & _ & _ & _ & _ & Hrun).
  destruct (Hrun Hcheck) as (_ & Hfail & _).
  apply (Hfail 1 [] (py "Invalid data found when processing input")
               (<[py "/tmp/tmp0.avi" := []]> (fs (one_video_file (E:=tools_fail)))));
    [reflexivity | discriminate].
Defined.

(** ** The audio converter: the fallback loader *)

Section AudioFallback.
Context {E : Externals}.

Lemma load_by_extension_loader input_ext input_path :
  AudioConverter.load_by_extension input_ext input_path
  = AudioConverter.load (AudioConverter.loader_for input_ext) input_path.
Proof.
  unfold AudioConverter.load_by_extension, AudioConverter.loader_for.
  by repeat case_bool_decide.
Qed.

(** A loader call is logged once and changes nothing else. *)
Lemma audio_load_world loader input_path w :
  snd (AudioConverter.load loader input_path w)
  = logged w [CallAudioLoad loader input_path].
Proof.
  unfold AudioConverter.load, bind, log, logged. simpl.
  by destruct (fs w !! input_path).
Qed.

Lemma export_audio_no_load audio output_format output_filename w :
  exists rest,
    calls (snd (AudioConverter._export_audio audio output_format
                  output_filename w)) = calls w ++ rest
    /\ forallb (fun c => negb (is_audio_load c)) rest = true.
Proof.
  unfold AudioConverter._export_audio, AudioConverter.export, remove_if_exists.
  unfold_m. by_cases; cbn [calls]; rewrite <- ?app_assoc; cbn [app];
    eexists; (split; [reflexivity|]); reflexivity.
Qed.

(** The fallback attempt calls the generic loader once, first. *)
Lemma audio_fallback_calls input_path output_format output_filename w :
  exists rest,
    calls (snd ((audio <- AudioConverter.load (FromFile None) input_path ;;
                 AudioConverter._export_audio audio output_format
                   output_filename) w))
    = calls w ++ [CallAudioLoad (FromFile None) input_path] ++ rest
    /\ forallb (fun c => negb (is_audio_load c)) rest = true.
Proof.
  unfold bind.
  pose proof (audio_load_world (FromFile None) input_path w) as Hload.
  destruct (AudioConverter.load (FromFile None) input_path w) as [[audio|e] w1];
    cbn [snd] in *; subst w1.
  - destruct (export_audio_no_load audio output_format output_filename
                (logged w [CallAudioLoad (FromFile None) input_path]))
      as (rest & Hc & Hrest).
    exists rest. split; [|done]. rewrite Hc. simpl. by rewrite <- app_assoc.
  - exists []. split; [|done]. simpl. done.
Qed.

End AudioFallback.

(** C7, as the converter is written.  When the loader picked for the
    declared input extension raises, the generic loader is called once, next,
    and no loader after it.  The conversion then ends as that second attempt
    ends, the attempt being the generic load followed by the export: with
    its result when it succeeds, with the error that carries both messages
    when it raises, whether in the load or in the export. *)
Theorem audio_fallback_rule {E : Externals}
        (input_path output_format original_filename : str) (w : World) (e : Exc) :
  let primary := AudioConverter.loader_for (extension_of input_path) in
  let output_filename :=
    AudioConverter._get_output_filename original_filename output_format in
  let fallback :=
    (audio <- AudioConverter.load (FromFile None) input_path ;;
     AudioConverter._export_audio audio output_format output_filename) in
  let w1 := logged w [CallAudioLoad primary input_path] in
  let run := AudioConverter.convert input_path output_format original_filename w in
  fst (AudioConverter.load primary input_path w) = Raise e ->
  (exists rest,
      calls (snd run)
      = calls w ++ [CallAudioLoad primary input_path;
                    CallAudioLoad (FromFile None) input_path] ++ rest
      /\ forallb (fun c => negb (is_audio_load c)) rest = true)
  /\ (forall result, fst (fallback w1) = Ok result -> fst run = Ok result)
  /\ (forall e2, fst (fallback w1) = Raise e2 ->
                 fst run = Raise (AudioConverter.both_failed e e2))
  /\ (forall e2, fst (AudioConverter.load (FromFile None) input_path w1) = Raise e2 ->
                 fst run = Raise (AudioConverter.both_failed e e2)).
Proof.
  intros primary output_filename fallback w1 run Hprimary.
  assert (Hrun : run = try_except fallback
                         (fun e2 => raise (AudioConverter.both_failed e e2)) w1).
  { subst run. unfold AudioConverter.convert. cbn zeta.
    unfold try_except at 1. unfold bind at 1.
    rewrite load_by_extension_loader. fold primary.
    pose proof (audio_load_world primary input_path w) as Hworld.
    destruct (AudioConverter.load primary input_path w) as [r w'].
    cbn [fst snd] in *. subst r w'. reflexivity. }
  rewrite Hrun. unfold try_except.
  destruct (audio_fallback_calls input_path output_format output_filename w1)
    as (rest & Hcalls & Hrest).
  fold fallback in Hcalls. split; [|split; [|split]].
  - exists rest. split; [|done].
    destruct (fallback w1) as [[r|e2] w2]; cbn [snd raise] in *;
      rewrite Hcalls; subst w1; simpl; by rewrite <- app_assoc.
  - intros result Hok. destruct (fallback w1) as [[r|e2] w2]; cbn [fst] in *;
      by inv_results.
  - intros e2 Hfail. destruct (fallback w1) as [[r|e2'] w2]; cbn [fst] in *;
      by inv_results.
  - intros e2 Hload. subst fallback. unfold bind.
    destruct (AudioConverter.load (FromFile None) input_path w1) as [[a|e2'] w2];
      cbn [fst] in *; by inv_results.
Qed.

(** C7 as stated fails: the error that carries both messages is also raised
    when the generic loader succeeds and the export step raises. *)
Lemma audio_error_after_successful_fallback_load :
  fst (AudioConverter.load (E:=tools_fail) FromMp3 (py "/tmp/in.mp3") one_audio_file)
    = Raise (mkExc OtherError (py "Decoding failed"))
  /\ fst (AudioConverter.load (E:=tools_fail) (FromFile None) (py "/tmp/in.mp3")
            (logged one_audio_file [CallAudioLoad FromMp3 (py "/tmp/in.mp3")]))
     = Ok [73; 68; 51]
  /\ fst (AudioConverter.convert (E:=tools_fail) (py "/tmp/in.mp3") (py "wav")
            (py "song.mp3") one_audio_file)
     = Raise (AudioConverter.both_failed
                (mkExc OtherError (py "Decoding failed"))
                (mkExc OtherError (py "Encoding failed"))).
Proof. repeat split; vm_compute; reflexivity. Qed.

Lemma audio_fallback_rule_witness :
  fst (AudioConverter.load (E:=decoder_fails) FromMp3 (py "/tmp/in.mp3")
         one_audio_file)
    = Raise (mkExc OtherError (py "Decoding failed"))
  /\ fst (AudioConverter.convert (E:=decoder_fails) (py "/tmp/in.mp3") (py "wav")
            (py "song.mp3") one_audio_file)
     = Ok ([73; 68; 51], py "song.wav", py "audio/wav").
Proof.
  assert (Hprimary :
            fst (AudioConverter.load (E:=decoder_fails)
                   (AudioConverter.loader_for (extension_of (py "/tmp/in.mp3")))
                   (py "/tmp/in.mp3") one_audio_file)
            = Raise (mkExc OtherError (py "Decoding failed"))) by reflexivity.
  split; [exact Hprimary|].
  destruct (audio_fallback_rule (E:=decoder_fails) (py "/tmp/in.mp3") (py "wav")
              (py "song.mp3") one_audio_file _ Hprimary) as (_ & Hok & _).
  apply Hok. vm_compute. reflexivity.
Defined.
